(** * Smart Energy Monitor backend: a shallow embedding of [backend/server.js]

    The Express application is modelled as a set of handlers running in a
    state-and-exception monad over a [World] that holds the two PostgreSQL
    tables created by [initDB].  The third-party packages the server calls
    (bcryptjs, jsonwebtoken) are parameters of a section; what the server
    itself does with them is written out.

    A request is taken once [express.json()] has parsed its body.  The text
    fields of a body are strings when they are present; a measurement field
    is classified by what PostgreSQL makes of the parameter.  The clock, the
    salt bcrypt draws and the failures of the database connection are inputs:
    the first two come with the request ([Env]), the last is a schedule kept
    in the world ([faults]). *)

From Stdlib Require Import ZArith List String Ascii Bool Lia.
From Stdlib Require Import DecimalString.
From Stdlib Require Import Sorting.Sorted.
From Stdlib Require Import Sorting.Permutation.
Import ListNotations.

Local Open Scope string_scope.
Local Open Scope Z_scope.

Set Warnings "-register-all".

(** ** JavaScript strings *)

(** [s.split(sep)] for a one-character separator: every occurrence of the
    separator ends a field, so the result is never empty. *)
Fixpoint js_split (sep : ascii) (s : string) : list string :=
  match s with
  | EmptyString => [EmptyString]
  | String c rest =>
      if Ascii.eqb c sep then EmptyString :: js_split sep rest
      else match js_split sep rest with
           | [] => [String c EmptyString]
           | field :: fields => String c field :: fields
           end
  end.

(** [a || d] where [a] is a string or [undefined]. *)
Definition js_or (a : option string) (d : string) : string :=
  match a with
  | Some s => if String.eqb s "" then d else s
  | None => d
  end.

(** The value of [x] when [x] is truthy: [!x] holds for [undefined] and for
    the empty string. *)
Definition truthy (x : option string) : option string :=
  match x with
  | Some s => if String.eqb s "" then None else Some s
  | None => None
  end.

Definition string_of_Z (z : Z) : string := NilZero.string_of_int (Z.to_int z).

(** ** JSON values and HTTP responses *)

Inductive json : Type :=
| JNull
| JBool (b : bool)
| JInt (z : Z)
| JNumeric (unscaled : Z) (scale : nat)
| JTime (t : Z)
| JStr (s : string)
| JArr (items : list json)
| JObj (fields : list (string * json)).

Definition object := list (string * json).

Fixpoint get (k : string) (o : object) : option json :=
  match o with
  | [] => None
  | (k', v) :: o' => if String.eqb k' k then Some v else get k o'
  end.

Definition keys (o : object) : list string := map fst o.

(** [delete o.k] *)
Definition delete (k : string) (o : object) : object :=
  filter (fun kv => negb (String.eqb (fst kv) k)) o.

(** The columns of a select list, in the order they are written. *)
Fixpoint project (cols : list string) (o : object) : object :=
  match cols with
  | [] => []
  | c :: cols' =>
      match get c o with
      | Some v => (c, v) :: project cols' o
      | None => project cols' o
      end
  end.

(** Whether a key occurs anywhere in a JSON document, at any depth. *)
Fixpoint mentions (k : string) (j : json) : bool :=
  match j with
  | JArr items => existsb (mentions k) items
  | JObj fields =>
      existsb (fun kv => let '(k', v) := kv in String.eqb k' k || mentions k v) fields
  | _ => false
  end.

Record Response : Type := { status : Z; body : json }.

(** [res.status(code).json(o)]; [res.json(o)] alone answers 200. *)
Definition res_status_json (code : Z) (o : object) : Response :=
  {| status := code; body := JObj o |}.

Definition res_json (o : object) : Response := res_status_json 200 o.

Definition failure (code : Z) (message : string) : Response :=
  res_status_json code [("success", JBool false); ("message", JStr message)].

(** A top-level field of a response body. *)
Definition field (k : string) (r : Response) : option json :=
  match body r with
  | JObj o => get k o
  | _ => None
  end.

(** ** The tables of [initDB] *)

(** A row of [users]. *)
Record User : Type := {
  usr_id : Z;                     (* SERIAL PRIMARY KEY *)
  usr_email : string;             (* VARCHAR(255) UNIQUE NOT NULL *)
  usr_first_name : string;        (* VARCHAR(100) NOT NULL *)
  usr_last_name : string;         (* VARCHAR(100) NOT NULL *)
  usr_password : string;          (* VARCHAR(255) NOT NULL *)
  usr_created_at : Z;             (* TIMESTAMP DEFAULT CURRENT_TIMESTAMP *)
  usr_last_login : option Z;      (* TIMESTAMP *)
  usr_settings : json             (* JSONB DEFAULT '{}' *)
}.

(** A row of [energy_readings]; the three measurements are kept as the
    unscaled integer of their DECIMAL column. *)
Record Reading : Type := {
  rdg_id : Z;                     (* SERIAL PRIMARY KEY *)
  rdg_user_id : option Z;         (* INTEGER REFERENCES users(id) *)
  rdg_power_w : option Z;         (* DECIMAL(10,2) *)
  rdg_energy_wh : option Z;       (* DECIMAL(10,2) *)
  rdg_cost : option Z;            (* DECIMAL(10,4) *)
  rdg_timestamp : Z               (* TIMESTAMP DEFAULT CURRENT_TIMESTAMP *)
}.

(** The database, with the two sequences behind the SERIAL columns, and the
    connection faults still to come: each [pool.query] consumes one entry,
    [true] meaning that the query does not reach the database. *)
Record World : Type := {
  users : list User;
  energy_readings : list Reading;
  users_id_seq : Z;
  energy_readings_id_seq : Z;
  faults : list bool
}.

Definition opt_json {A} (f : A -> json) (o : option A) : json :=
  match o with
  | Some a => f a
  | None => JNull
  end.

(** The JavaScript object node-postgres builds for a row of [SELECT *]. *)
Definition user_row (u : User) : object :=
  [ ("id", JInt (usr_id u));
    ("email", JStr (usr_email u));
    ("first_name", JStr (usr_first_name u));
    ("last_name", JStr (usr_last_name u));
    ("password", JStr (usr_password u));
    ("created_at", JTime (usr_created_at u));
    ("last_login", opt_json JTime (usr_last_login u));
    ("settings", usr_settings u) ].

Definition reading_row (r : Reading) : object :=
  [ ("id", JInt (rdg_id r));
    ("user_id", opt_json JInt (rdg_user_id r));
    ("power_w", opt_json (fun u => JNumeric u 2) (rdg_power_w r));
    ("energy_wh", opt_json (fun u => JNumeric u 2) (rdg_energy_wh r));
    ("cost", opt_json (fun u => JNumeric u 4) (rdg_cost r));
    ("timestamp", JTime (rdg_timestamp r)) ].

(** ** Column types *)

Fixpoint all_spaces (s : string) : bool :=
  match s with
  | EmptyString => true
  | String c rest => Ascii.eqb c " "%char && all_spaces rest
  end.

(** Storing into VARCHAR(n): a longer string is an error unless the excess
    is made of spaces only, in which case it is cut to [n] characters. *)
Definition varchar (n : nat) (s : string) : option string :=
  if (String.length s <=? n)%nat then Some s
  else if all_spaces (substring n (String.length s - n) s)
       then Some (substring 0 n s)
       else None.

(** A decimal number [mant * 10 ^ expo] as a client writes it. *)
Record dec : Type := { mant : Z; expo : Z }.

(** A measurement field of a request body: missing (or [null]), a number, or
    a value PostgreSQL cannot read as a number. *)
Inductive num_field : Type :=
| FAbsent
| FNumber (d : dec)
| FOther.

Definition round_half_away (m d : Z) : Z :=
  Z.sgn m * ((2 * Z.abs m + d) / (2 * d)).

(** Rounding to [s] fractional digits, as the unscaled integer. *)
Definition rescale (s : nat) (d : dec) : Z :=
  let e := expo d + Z.of_nat s in
  if 0 <=? e then mant d * 10 ^ e else round_half_away (mant d) (10 ^ (- e)).

(** ** Errors a handler can catch *)

Inductive js_error : Type :=
| ConnectionError
| DatabaseError (code : string) (detail : option string)
| IllegalArguments
| TypeError.

(** [err.detail] *)
Definition err_detail (e : js_error) : option string :=
  match e with
  | DatabaseError _ d => d
  | _ => None
  end.

Definition unique_violation (e : string) : js_error :=
  DatabaseError "23505" (Some ("Key (email)=(" ++ e ++ ") already exists.")).

Definition string_data_right_truncation : js_error :=
  DatabaseError "22001" None.

Definition dquote : string := String (ascii_of_nat 34) EmptyString.

Definition foreign_key_violation (uid : Z) : js_error :=
  DatabaseError "23503"
    (Some ("Key (user_id)=(" ++ string_of_Z uid ++ ") is not present in table "
           ++ dquote ++ "users" ++ dquote ++ ".")).

Definition numeric_value_out_of_range (p s : nat) : js_error :=
  DatabaseError "22003"
    (Some ("A field with precision " ++ string_of_Z (Z.of_nat p) ++ ", scale "
           ++ string_of_Z (Z.of_nat s)
           ++ " must round to an absolute value less than 10^"
           ++ string_of_Z (Z.of_nat (p - s)) ++ ".")).

Definition invalid_text_representation : js_error :=
  DatabaseError "22P02" None.

(** Storing a request field into DECIMAL(p,s). *)
Definition numeric (p s : nat) (f : num_field) : js_error + option Z :=
  match f with
  | FAbsent => inr None
  | FOther => inl invalid_text_representation
  | FNumber d =>
      let u := rescale s d in
      if Z.abs u <? 10 ^ Z.of_nat p then inr (Some u)
      else inl (numeric_value_out_of_range p s)
  end.

(** ** Handlers as computations over the world *)

(** An [async] body: it reads and writes the world and either returns or
    throws.  What a query has written stays written when a later step
    throws. *)
Definition M (A : Type) : Type := World -> (js_error + A) * World.

Definition ret {A} (a : A) : M A := fun w => (inr a, w).

Definition throw {A} (e : js_error) : M A := fun w => (inl e, w).

Definition bind {A B} (m : M A) (k : A -> M B) : M B :=
  fun w =>
    match m w with
    | (inl e, w') => (inl e, w')
    | (inr a, w') => k a w'
    end.

Notation "x <- m ;; k" := (bind m (fun x => k))
  (at level 61, m at next level, right associativity).

(** [try { m } catch (err) { h err }] where the catch block only answers. *)
Definition try_catch {A} (m : M A) (h : js_error -> A) : World -> A * World :=
  fun w =>
    match m w with
    | (inl e, w') => (h e, w')
    | (inr a, w') => (a, w')
    end.

Definition set_faults (fs : list bool) (w : World) : World :=
  {| users := users w;
     energy_readings := energy_readings w;
     users_id_seq := users_id_seq w;
     energy_readings_id_seq := energy_readings_id_seq w;
     faults := fs |}.

Definition set_users (us : list User) (w : World) : World :=
  {| users := us;
     energy_readings := energy_readings w;
     users_id_seq := users_id_seq w;
     energy_readings_id_seq := energy_readings_id_seq w;
     faults := faults w |}.

Definition set_users_id_seq (n : Z) (w : World) : World :=
  {| users := users w;
     energy_readings := energy_readings w;
     users_id_seq := n;
     energy_readings_id_seq := energy_readings_id_seq w;
     faults := faults w |}.

Definition set_energy_readings (rs : list Reading) (w : World) : World :=
  {| users := users w;
     energy_readings := rs;
     users_id_seq := users_id_seq w;
     energy_readings_id_seq := energy_readings_id_seq w;
     faults := faults w |}.

Definition set_energy_readings_id_seq (n : Z) (w : World) : World :=
  {| users := users w;
     energy_readings := energy_readings w;
     users_id_seq := users_id_seq w;
     energy_readings_id_seq := n;
     faults := faults w |}.

(** [await pool.query(...)]: the statement runs unless the connection
    fails. *)
Definition pool_query {A} (stmt : M A) : M A :=
  fun w =>
    match faults w with
    | true :: fs => (inl ConnectionError, set_faults fs w)
    | false :: fs => stmt (set_faults fs w)
    | [] => stmt w
    end.

(** ** The SQL statements of the server

    A result row is kept as the table row it was read from; the select list
    of the statement is applied with [project] where the handler sends the
    row. *)

Definition email_taken (e : string) (us : list User) : bool :=
  existsb (fun u => String.eqb (usr_email u) e) us.

Definition user_exists (uid : Z) (us : list User) : bool :=
  existsb (fun u => usr_id u =? uid) us.

(** [INSERT INTO users (email, first_name, last_name, password)
     VALUES ($1, $2, $3, $4) RETURNING ...].  The values are coerced to their
    columns first; then the row is formed, which advances the sequence, and
    the unique index on [email] accepts or refuses it. *)
Definition insert_user (email first_name last_name password : string)
    (current_timestamp : Z) : M (list User) :=
  fun w =>
    match varchar 255 email, varchar 100 first_name,
          varchar 100 last_name, varchar 255 password with
    | Some e, Some f, Some l, Some p =>
        let w' := set_users_id_seq (users_id_seq w + 1) w in
        if email_taken e (users w) then (inl (unique_violation e), w')
        else
          let u := {| usr_id := users_id_seq w;
                      usr_email := e;
                      usr_first_name := f;
                      usr_last_name := l;
                      usr_password := p;
                      usr_created_at := current_timestamp;
                      usr_last_login := None;
                      usr_settings := JObj [] |} in
          (inr [u], set_users (users w ++ [u]) w')
    | _, _, _, _ => (inl string_data_right_truncation, w)
    end.

Definition insert_user_returning : list string :=
  ["id"; "email"; "first_name"; "last_name"; "created_at"].

(** [SELECT * FROM users WHERE email = $1]; an [undefined] parameter is sent
    as NULL, which equals no email. *)
Definition users_with_email (email : option string) (us : list User)
    : list User :=
  match email with
  | Some e => filter (fun u => String.eqb (usr_email u) e) us
  | None => []
  end.

Definition select_user_by_email (email : option string) : M (list User) :=
  fun w => (inr (users_with_email email (users w)), w).

Definition touch (uid current_timestamp : Z) (u : User) : User :=
  if usr_id u =? uid then
    {| usr_id := usr_id u;
       usr_email := usr_email u;
       usr_first_name := usr_first_name u;
       usr_last_name := usr_last_name u;
       usr_password := usr_password u;
       usr_created_at := usr_created_at u;
       usr_last_login := Some current_timestamp;
       usr_settings := usr_settings u |}
  else u.

(** [UPDATE users SET last_login = CURRENT_TIMESTAMP WHERE id = $1] *)
Definition update_last_login (uid current_timestamp : Z) : M unit :=
  fun w => (inr tt, set_users (map (touch uid current_timestamp) (users w)) w).

(** [SELECT id, email, first_name, last_name, created_at, last_login, settings
     FROM users WHERE id = $1] *)
Definition select_profile (uid : Z) : M (list User) :=
  fun w => (inr (filter (fun u => usr_id u =? uid) (users w)), w).

Definition select_profile_columns : list string :=
  ["id"; "email"; "first_name"; "last_name"; "created_at"; "last_login";
   "settings"].

(** [INSERT INTO energy_readings (user_id, power_w, energy_wh, cost)
     VALUES ($1, $2, $3, $4)].  The foreign key is checked on the row once it
    is formed. *)
Definition insert_reading (uid : Z) (power energy cost : num_field)
    (current_timestamp : Z) : M unit :=
  fun w =>
    match numeric 10 2 power, numeric 10 2 energy, numeric 10 4 cost with
    | inr p, inr e, inr c =>
        let w' := set_energy_readings_id_seq (energy_readings_id_seq w + 1) w in
        if user_exists uid (users w) then
          let r := {| rdg_id := energy_readings_id_seq w;
                      rdg_user_id := Some uid;
                      rdg_power_w := p;
                      rdg_energy_wh := e;
                      rdg_cost := c;
                      rdg_timestamp := current_timestamp |} in
          (inr tt, set_energy_readings (energy_readings w ++ [r]) w')
        else (inl (foreign_key_violation uid), w')
    | inl err, _, _ => (inl err, w)
    | _, inl err, _ => (inl err, w)
    | _, _, inl err => (inl err, w)
    end.

Fixpoint insert_desc (r : Reading) (l : list Reading) : list Reading :=
  match l with
  | [] => [r]
  | x :: l' =>
      if rdg_timestamp x <=? rdg_timestamp r then r :: l
      else x :: insert_desc r l'
  end.

(** [ORDER BY timestamp DESC]; rows of equal timestamp keep their order in
    the table. *)
Definition order_by_timestamp_desc (l : list Reading) : list Reading :=
  fold_right insert_desc [] l.

Definition owned_by (uid : Z) (r : Reading) : bool :=
  match rdg_user_id r with
  | Some u => u =? uid
  | None => false
  end.

(** The rows [WHERE user_id = $1 ORDER BY timestamp DESC LIMIT 100]
    selects. *)
Definition listing (uid : Z) (w : World) : list Reading :=
  firstn 100
    (order_by_timestamp_desc (filter (owned_by uid) (energy_readings w))).

(** [SELECT * FROM energy_readings WHERE user_id = $1
     ORDER BY timestamp DESC LIMIT 100] *)
Definition select_readings (uid : Z) : M (list Reading) :=
  fun w => (inr (listing uid w), w).

(** ** Requests *)

(** The claims of a session token: what the server signs, and the two times
    jsonwebtoken adds (in seconds). *)
Record Payload : Type := {
  claim_id : Z;
  claim_email : string;
  iat : Z;
  exp : option Z
}.

(** [req.body] after [express.json()]: an object in which any of the keys
    the handlers read may be missing. *)
Record Body : Type := {
  email : option string;
  firstName : option string;
  lastName : option string;
  password : option string;
  power : num_field;
  energy : num_field;
  cost : num_field
}.

Record Request : Type := {
  authorization : option string;      (* req.headers['authorization'] *)
  req_body : Body;
  user : option Payload               (* req.user *)
}.

Definition set_user (req : Request) (claims : Payload) : Request :=
  {| authorization := authorization req;
     req_body := req_body req;
     user := Some claims |}.

(** What a request finds outside the database: [Date.now()] in milliseconds,
    the database's CURRENT_TIMESTAMP, and the salt bcrypt draws for a given
    number of rounds. *)
Record Env : Type := {
  date_now : Z;
  current_timestamp : Z;
  gen_salt : nat -> string
}.

Inductive jwt_error : Type :=
| JsonWebTokenError (message : string)
| TokenExpiredError.

(** [authHeader && authHeader.split(' ')[1]]: a falsy header is the result
    itself, otherwise the second of the fields that single spaces separate,
    if there is one. *)
Definition header_token (authHeader : option string) : option string :=
  match truthy authHeader with
  | Some h => nth_error (js_split " " h) 1
  | None => authHeader
  end.

Fixpoint spaceless (s : string) : bool :=
  match s with
  | EmptyString => true
  | String c rest => negb (Ascii.eqb c " "%char) && spaceless rest
  end.

(** ['7d'] in seconds. *)
Definition seven_days : Z := 7 * 24 * 60 * 60.

Definition default_secret : string := "energy-monitor-secret-key-2024".

Section Server.

(** *** bcryptjs and jsonwebtoken *)

(** The bcrypt digest (60 characters) of a password under a salt. *)
Variable bcrypt_hashpw : string -> string -> string.

(** The compact HS256 serialization of a payload under a key, the payload
    a serialization carries, and whether its signature is the one the key
    gives. *)
Variable jws_sign : Payload -> string -> string.
Variable jws_decode : string -> option Payload.
Variable jws_verify : string -> string -> bool.

(** [process.env.JWT_SECRET] *)
Variable JWT_SECRET : option string.

(** [bcrypt.hash(s, rounds)] *)
Definition bcrypt_hash (s : string) (rounds : nat) (env : Env) : M string :=
  ret (bcrypt_hashpw s (gen_salt env rounds)).

(** The row a registration adds to [users]: the submitted fields, the digest
    of the password, and the defaults of the other columns. *)
Definition new_user (env : Env) (w : World) (e f l p : string) : User :=
  {| usr_id := users_id_seq w;
     usr_email := e;
     usr_first_name := f;
     usr_last_name := l;
     usr_password := bcrypt_hashpw p (gen_salt env 10);
     usr_created_at := current_timestamp env;
     usr_last_login := None;
     usr_settings := JObj [] |}.

(** [bcrypt.compare(s, hash)]: rejects when [s] is not a string, is false
    for a hash that is not 60 characters long, and otherwise hashes [s]
    under the salt the hash starts with. *)
Definition bcrypt_compare (s : option string) (hash : string) : M bool :=
  match s with
  | None => throw IllegalArguments
  | Some s =>
      if negb (String.length hash =? 60)%nat then ret false
      else ret (String.eqb (bcrypt_hashpw s (substring 0 29 hash)) hash)
  end.

(** [jwt.sign(claims, secret, { expiresIn })] *)
Definition jwt_sign (uid : Z) (mail : string) (secret : string)
    (expiresIn : Z) (env : Env) : string :=
  let timestamp := date_now env / 1000 in
  jws_sign {| claim_id := uid;
              claim_email := mail;
              iat := timestamp;
              exp := Some (timestamp + expiresIn) |} secret.

(** [jwt.verify(token, secret, callback)]: what the callback receives. *)
Definition jwt_verify (token secret : string) (env : Env)
    : jwt_error + Payload :=
  match jws_decode token with
  | None => inl (JsonWebTokenError "jwt malformed")
  | Some payload =>
      if negb (jws_verify token secret)
      then inl (JsonWebTokenError "invalid signature")
      else
        match exp payload with
        | Some e =>
            if e <=? date_now env / 1000 then inl TokenExpiredError
            else inr payload
        | None => inr payload
        end
  end.

Definition secret : string := js_or JWT_SECRET default_secret.

(** *** The authentication middleware *)

Definition Handler : Type := Env -> Request -> World -> Response * World.

Definition authenticateToken (env : Env) (req : Request)
    (next : Request -> World -> Response * World)
    : World -> Response * World :=
  let authHeader := authorization req in
  let token := header_token authHeader in
  match truthy token with
  | None => fun w => (failure 401 "Access token required", w)
  | Some token =>
      match jwt_verify token secret env with
      | inl err => fun w => (failure 403 "Invalid or expired token", w)
      | inr claims => next (set_user req claims)
      end
  end.

(** A request the middleware lets through with the given claims. *)
Definition authenticated_as (env : Env) (req : Request) (claims : Payload)
    : Prop :=
  exists token,
    truthy (header_token (authorization req)) = Some token
    /\ jwt_verify token secret env = inr claims.

(** *** The routes *)

(** [app.post('/api/register', ...)] *)
Definition post_register : Handler := fun env req =>
  try_catch
    (let b := req_body req in
     match truthy (email b), truthy (firstName b),
           truthy (lastName b), truthy (password b) with
     | Some email, Some firstName, Some lastName, Some password =>
         hashedPassword <- bcrypt_hash password 10 env ;;
         result <- pool_query
                     (insert_user email firstName lastName hashedPassword
                        (current_timestamp env)) ;;
         match result with
         | [] => throw TypeError
         | row :: _ =>
             let token :=
               jwt_sign (usr_id row) email secret seven_days env in
             ret (res_json
                    [ ("success", JBool true);
                      ("message", JStr "Registration successful");
                      ("user", JObj (project insert_user_returning (user_row row)));
                      ("token", JStr token) ])
         end
     | _, _, _, _ => ret (failure 400 "All fields are required")
     end)
    (fun err => failure 400 (js_or (err_detail err) "Registration failed")).

(** [app.post('/api/login', ...)] *)
Definition post_login : Handler := fun env req =>
  try_catch
    (let b := req_body req in
     result <- pool_query (select_user_by_email (email b)) ;;
     match result with
     | [] => ret (failure 401 "Invalid credentials")
     | user :: _ =>
         validPassword <- bcrypt_compare (password b) (usr_password user) ;;
         if negb validPassword then ret (failure 401 "Invalid credentials")
         else
           _ <- pool_query
                  (update_last_login (usr_id user) (current_timestamp env)) ;;
           let token :=
             jwt_sign (usr_id user) (usr_email user) secret seven_days env in
           ret (res_json
                  [ ("success", JBool true);
                    ("message", JStr "Login successful");
                    ("user", JObj (delete "password" (user_row user)));
                    ("token", JStr token) ])
     end)
    (fun err => failure 500 "Login failed").

Definition claims_id (req : Request) : M Z :=
  match user req with
  | Some claims => ret (claim_id claims)
  | None => throw TypeError
  end.

(** The handler of [app.get('/api/profile', authenticateToken, ...)] *)
Definition profile : Handler := fun env req =>
  try_catch
    (uid <- claims_id req ;;
     result <- pool_query (select_profile uid) ;;
     ret (res_json
            (("success", JBool true) ::
             match result with
             | [] => []
             | row :: _ =>
                 [("user", JObj (project select_profile_columns (user_row row)))]
             end)))
    (fun err => failure 500 "Failed to fetch profile").

(** The handler of [app.post('/api/readings', authenticateToken, ...)] *)
Definition submit_reading : Handler := fun env req =>
  try_catch
    (let b := req_body req in
     uid <- claims_id req ;;
     _ <- pool_query
            (insert_reading uid (power b) (energy b) (cost b)
               (current_timestamp env)) ;;
     ret (res_json
            [ ("success", JBool true); ("message", JStr "Reading saved") ]))
    (fun err => failure 500 "Failed to save reading").

(** The handler of [app.get('/api/readings', authenticateToken, ...)] *)
Definition list_readings : Handler := fun env req =>
  try_catch
    (uid <- claims_id req ;;
     result <- pool_query (select_readings uid) ;;
     ret (res_json
            [ ("success", JBool true);
              ("readings", JArr (map (fun r => JObj (reading_row r)) result)) ]))
    (fun err => failure 500 "Failed to fetch readings").

Definition protected (handler : Handler) : Handler := fun env req =>
  authenticateToken env req (handler env).

Definition get_profile : Handler := protected profile.
Definition post_readings : Handler := protected submit_reading.
Definition get_readings : Handler := protected list_readings.

(** [app.get('/health', ...)] *)
Definition get_health : Handler := fun env req w =>
  (res_json
     [ ("status", JStr "healthy");
       ("service", JStr "Energy Monitor API");
       ("version", JStr "1.0.0");
       ("timestamp", JTime (date_now env)) ], w).

(** [app.get('/', ...)] *)
Definition get_root : Handler := fun env req w =>
  (res_json
     [ ("message", JStr "Smart Energy Monitor API");
       ("endpoints",
        JObj [ ("register", JStr "POST /api/register");
               ("login", JStr "POST /api/login");
               ("profile", JStr "GET /api/profile");
               ("readings", JStr "GET /api/readings");
               ("submit", JStr "POST /api/readings");
               ("health", JStr "GET /health") ]) ], w).

End Server.

(** ** The application as a transition system *)

Inductive Route : Type :=
| PostRegister
| PostLogin
| GetProfile
| PostReadings
| GetReadings
| GetHealth
| GetRoot.

Record Event : Type := { ev_route : Route; ev_env : Env; ev_req : Request }.

Section App.

Variable bcrypt_hashpw : string -> string -> string.
Variable jws_sign : Payload -> string -> string.
Variable jws_decode : string -> option Payload.
Variable jws_verify : string -> string -> bool.
Variable JWT_SECRET : option string.

Definition app (r : Route) : Handler :=
  match r with
  | PostRegister => post_register bcrypt_hashpw jws_sign JWT_SECRET
  | PostLogin => post_login bcrypt_hashpw jws_sign JWT_SECRET
  | GetProfile => get_profile jws_decode jws_verify JWT_SECRET
  | PostReadings => post_readings jws_decode jws_verify JWT_SECRET
  | GetReadings => get_readings jws_decode jws_verify JWT_SECRET
  | GetHealth => get_health
  | GetRoot => get_root
  end.

Definition step (w : World) (ev : Event) : Response * World :=
  app (ev_route ev) (ev_env ev) (ev_req ev) w.

(** The world after a sequence of requests, served one after the other. *)
Definition run (w : World) (evs : list Event) : World :=
  fold_left (fun w ev => snd (step w ev)) evs w.

End App.


(** The form under which the [email] column keeps a submitted address. *)
Definition stored_email (e : string) : string :=
  match varchar 255 e with
  | Some e' => e'
  | None => e
  end.

(** The database before any request. *)
Definition empty_world : World :=
  {| users := [];
     energy_readings := [];
     users_id_seq := 1;
     energy_readings_id_seq := 1;
     faults := [] |}.

(** Whether the [n]-th query from now on fails to reach the database. *)
Definition fault_at (n : nat) (w : World) : bool := nth n (faults w) false.

Definition no_fault (w : World) : Prop := fault_at 0 w = false.

(** The world once a query has consumed its entry of [faults]. *)
Definition past_query (w : World) : World := set_faults (tl (faults w)) w.

Definition newer_first (a b : Reading) : Prop :=
  rdg_timestamp b <= rdg_timestamp a.

(** ** A small instance of the two packages

    Enough of bcryptjs and jsonwebtoken to run the server on concrete
    requests: digests are the salt followed by the password, cut or padded
    to 60 characters, and a token spells out its payload followed by a
    checksum of the key. *)
Module Demo.

Fixpoint fit (n : nat) (s : string) : string :=
  match n with
  | O => EmptyString
  | S n' =>
      match s with
      | EmptyString => String "."%char (fit n' EmptyString)
      | String c rest => String c (fit n' rest)
      end
  end.

Definition hashpw (s salt : string) : string := fit 60 (salt ++ s).

Fixpoint enc_pos (p : positive) : string :=
  match p with
  | xH => "H"
  | xO q => String "O"%char (enc_pos q)
  | xI q => String "I"%char (enc_pos q)
  end.

Fixpoint dec_pos (s : string) : option (positive * string) :=
  match s with
  | EmptyString => None
  | String c rest =>
      if Ascii.eqb c "H"%char then Some (xH, rest)
      else if Ascii.eqb c "O"%char then
        match dec_pos rest with
        | Some (q, rest') => Some (xO q, rest')
        | None => None
        end
      else if Ascii.eqb c "I"%char then
        match dec_pos rest with
        | Some (q, rest') => Some (xI q, rest')
        | None => None
        end
      else None
  end.

Definition enc_Z (z : Z) : string :=
  match z with
  | Z0 => "Z"
  | Zpos p => String "P"%char (enc_pos p)
  | Zneg p => String "N"%char (enc_pos p)
  end.

Definition dec_Z (s : string) : option (Z * string) :=
  match s with
  | EmptyString => None
  | String c rest =>
      if Ascii.eqb c "Z"%char then Some (0, rest)
      else if Ascii.eqb c "P"%char then
        match dec_pos rest with
        | Some (p, rest') => Some (Zpos p, rest')
        | None => None
        end
      else if Ascii.eqb c "N"%char then
        match dec_pos rest with
        | Some (p, rest') => Some (Zneg p, rest')
        | None => None
        end
      else None
  end.

Definition enc_opt (o : option Z) : string :=
  match o with
  | None => "-"
  | Some z => String "+"%char (enc_Z z)
  end.

Definition dec_opt (s : string) : option (option Z * string) :=
  match s with
  | EmptyString => None
  | String c rest =>
      if Ascii.eqb c "-"%char then Some (None, rest)
      else if Ascii.eqb c "+"%char then
        match dec_Z rest with
        | Some (z, rest') => Some (Some z, rest')
        | None => None
        end
      else None
  end.

Fixpoint checksum (k : string) : Z :=
  match k with
  | EmptyString => 0
  | String c rest => Z.of_nat (nat_of_ascii c) + 3 * checksum rest
  end.

Definition sign (p : Payload) (k : string) : string :=
  enc_Z (claim_id p) ++ enc_Z (iat p) ++ enc_opt (exp p)
  ++ enc_Z (checksum k) ++ claim_email p.

Definition parse (token : string) : option (Payload * Z) :=
  match dec_Z token with
  | None => None
  | Some (i, s1) =>
      match dec_Z s1 with
      | None => None
      | Some (t, s2) =>
          match dec_opt s2 with
          | None => None
          | Some (e, s3) =>
              match dec_Z s3 with
              | None => None
              | Some (c, mail) =>
                  Some ({| claim_id := i; claim_email := mail;
                           iat := t; exp := e |}, c)
              end
          end
      end
  end.

Definition decode (token : string) : option Payload :=
  match parse token with
  | Some (p, _) => Some p
  | None => None
  end.

Definition verify (token k : string) : bool :=
  match parse token with
  | Some (_, c) => c =? checksum k
  | None => false
  end.

Definition env (t : Z) : Env :=
  {| date_now := 1000 * t;
     current_timestamp := t;
     gen_salt := fun _ => "$2a$10$abcdefghijklmnopqrstuv" |}.

Definition no_body : Body :=
  {| email := None; firstName := None; lastName := None; password := None;
     power := FAbsent; energy := FAbsent; cost := FAbsent |}.

Definition credentials (e f l p : option string) : Body :=
  {| email := e; firstName := f; lastName := l; password := p;
     power := FAbsent; energy := FAbsent; cost := FAbsent |}.

Definition measurement (p e c : num_field) : Body :=
  {| email := None; firstName := None; lastName := None; password := None;
     power := p; energy := e; cost := c |}.

Definition request (auth : option string) (b : Body) : Request :=
  {| authorization := auth; req_body := b; user := None |}.

Definition register := post_register hashpw sign None.
Definition login := post_login hashpw sign None.
Definition readings_post := post_readings decode verify None.

End Demo.

(** Requests and states used in the instances below. *)
Module Sample.

Definition alice : Request :=
  Demo.request None
    (Demo.credentials (Some "a@b.com") (Some "A") (Some "B") (Some "pw123456")).

Definition alice_login (pw : option string) : Request :=
  Demo.request None (Demo.credentials (Some "a@b.com") None None pw).



(** The tables once alice has registered. *)
Definition registered : World := snd (Demo.register (Demo.env 5) alice empty_world).

Definition alice_claims : Payload :=
  {| claim_id := 1; claim_email := "a@b.com"; iat := 5; exp := Some 604805 |}.

Definition alice_token : string :=
  jwt_sign Demo.sign 1 "a@b.com" default_secret seven_days (Demo.env 5).

Definition bearer (b : Body) : Request :=
  Demo.request (Some ("Bearer " ++ alice_token)) b.

Definition sample_reading : Body :=
  Demo.measurement (FNumber {| mant := 1005; expo := -1 |})
    (FNumber {| mant := 5; expo := -1 |})
    (FNumber {| mant := 8; expo := -2 |}).

(** The tables once alice has submitted a reading at time 7. *)
Definition measured : World :=
  snd (Demo.readings_post (Demo.env 7) (bearer sample_reading) registered).

End Sample.

(** More requests and events for the instances. *)
Module Sample2.

Definition no_password : Request :=
  Demo.request None (Demo.credentials (Some "a@b.com") (Some "A") (Some "B") None).

Definition event (r : Route) (t : Z) (req : Request) : Event :=
  {| ev_route := r; ev_env := Demo.env t; ev_req := req |}.


Definition alice_row : User :=
  {| usr_id := 1;
     usr_email := "a@b.com";
     usr_first_name := "A";
     usr_last_name := "B";
     usr_password := Demo.hashpw "pw123456" (gen_salt (Demo.env 5) 10);
     usr_created_at := 5;
     usr_last_login := None;
     usr_settings := JObj [] |}.


Definition not_a_number : Body := Demo.measurement FOther FAbsent FAbsent.

End Sample2.

(** How one request can change [users]: not at all, by stamping the
    last login of the rows of one id, or by adding one row whose email no
    row holds and whose settings are the default. *)
Definition users_step (us us' : list User) : Prop :=
  us' = us
  \/ (exists uid ts, us' = map (touch uid ts) us)
  \/ (exists u, us' = (us ++ [u])%list
                /\ usr_settings u = JObj []
                /\ email_taken (usr_email u) us = false).

Definition default_settings (us : list User) : Prop :=
  Forall (fun u => usr_settings u = JObj []) us.

(** ** The password column *)

Definition public_columns : list string :=
  ["id"; "email"; "first_name"; "last_name"; "created_at"; "last_login";
   "settings"].

(** The row [INSERT INTO energy_readings] writes. *)
Definition new_reading (env : Env) (w : World) (uid : Z) (p e c : option Z)
    : Reading :=
  {| rdg_id := energy_readings_id_seq w;
     rdg_user_id := Some uid;
     rdg_power_w := p;
     rdg_energy_wh := e;
     rdg_cost := c;
     rdg_timestamp := current_timestamp env |}.

(** ** Predicates on the tables *)

(** Two rows of [users] that differ at most in [last_login]. *)
Definition same_identity (u u' : User) : Prop :=
  usr_id u' = usr_id u
  /\ usr_email u' = usr_email u
  /\ usr_first_name u' = usr_first_name u
  /\ usr_last_name u' = usr_last_name u
  /\ usr_password u' = usr_password u
  /\ usr_created_at u' = usr_created_at u
  /\ usr_settings u' = usr_settings u.

(** Every id in [users] was drawn from the sequence. *)
Definition ids_below_seq (w : World) : Prop :=
  Forall (fun u => usr_id u < users_id_seq w) (users w).

(** PRIMARY KEY on [id] and UNIQUE on [email]. *)
Definition keys_unique (w : World) : Prop :=
  NoDup (map usr_id (users w)) /\ NoDup (map usr_email (users w)).


(** What one request can do to the tables: nothing to [users] and at most
    one row more in [energy_readings], for a user that exists; a last-login
    stamp; or one more user, under the next id of the sequence and an email
    no row holds. *)
Definition world_step (w w' : World) : Prop :=
  (users w' = users w
   /\ users_id_seq w <= users_id_seq w'
   /\ (energy_readings w' = energy_readings w
       \/ exists r uid,
            energy_readings w' = (energy_readings w ++ [r])%list
            /\ rdg_user_id r = Some uid
            /\ user_exists uid (users w) = true))
  \/ (exists uid ts,
        users w' = map (touch uid ts) (users w)
        /\ users_id_seq w' = users_id_seq w
        /\ energy_readings w' = energy_readings w)
  \/ (exists u,
        users w' = (users w ++ [u])%list
        /\ usr_id u = users_id_seq w
        /\ users_id_seq w' = users_id_seq w + 1
        /\ email_taken (usr_email u) (users w) = false
        /\ energy_readings w' = energy_readings w).

(** A measurement a DECIMAL(p,s) column cannot take: not a number, or a
    number that rounds to [p] digits or more. *)
Definition unstorable (p s : nat) (f : num_field) : Prop :=
  f = FOther
  \/ exists d, f = FNumber d /\ 10 ^ Z.of_nat p <= Z.abs (rescale s d).

(** ** [initDB]

    Before [initDB] has run the tables may not exist.  A table that exists
    is its rows and the next value of the sequence behind its SERIAL
    column. *)
Record Database : Type := {
  users_table : option (list User * Z);
  energy_readings_table : option (list Reading * Z);
  db_faults : list bool
}.

(** What [initDB] writes to the console. *)
Inductive console : Type :=
| tables_created                     (* console.log('... Database tables created') *)
| database_error (err : js_error).   (* console.error('Database error:', err) *)

Definition undefined_table : js_error := DatabaseError "42P01" None.

(** [await pool.query(...)] on a database. *)
Definition db_query (stmt : Database -> js_error + Database) (db : Database)
    : js_error + Database :=
  match db_faults db with
  | true :: fs =>
      inl ConnectionError
  | false :: fs =>
      stmt {| users_table := users_table db;
              energy_readings_table := energy_readings_table db;
              db_faults := fs |}
  | [] => stmt db
  end.

(** The database once a query has consumed its entry of [db_faults]. *)
Definition db_past_query (db : Database) : Database :=
  {| users_table := users_table db;
     energy_readings_table := energy_readings_table db;
     db_faults := tl (db_faults db) |}.

(** [CREATE TABLE IF NOT EXISTS users (...)]: a table that exists is left as
    it is. *)
Definition create_users (db : Database) : js_error + Database :=
  inr {| users_table :=
           match users_table db with
           | Some t => Some t
           | None => Some ([], 1)
           end;
         energy_readings_table := energy_readings_table db;
         db_faults := db_faults db |}.

(** [CREATE TABLE IF NOT EXISTS energy_readings (...)]; creating it needs
    the table [users] its foreign key refers to. *)
Definition create_energy_readings (db : Database) : js_error + Database :=
  match energy_readings_table db with
  | Some t => inr db
  | None =>
      match users_table db with
      | Some _ =>
          inr {| users_table := users_table db;
                 energy_readings_table := Some ([], 1);
                 db_faults := db_faults db |}
      | None => inl undefined_table
      end
  end.

(** [initDB()]: the two statements one after the other; an error of either
    is caught and printed, and what was done before it stays done. *)
Definition initDB (db : Database) : console * Database :=
  match db_query create_users db with
  | inl err => (database_error err, db_past_query db)
  | inr db1 =>
      match db_query create_energy_readings db1 with
      | inl err => (database_error err, db_past_query db1)
      | inr db2 => (tables_created, db2)
      end
  end.

(** The world the handlers work on, once both tables exist. *)
Definition world_of (db : Database) : option World :=
  match users_table db, energy_readings_table db with
  | Some (us, useq), Some (rs, rseq) =>
      Some {| users := us;
              energy_readings := rs;
              users_id_seq := useq;
              energy_readings_id_seq := rseq;
              faults := db_faults db |}
  | _, _ => None
  end.

(** A database in which nothing has been created. *)
Definition blank (fs : list bool) : Database :=
  {| users_table := None; energy_readings_table := None; db_faults := fs |}.

(** The routes that only read. *)
Definition read_only (r : Route) : bool :=
  match r with
  | GetProfile | GetReadings | GetHealth | GetRoot => true
  | PostRegister | PostLogin | PostReadings => false
  end.

(** * Properties *)

(** ** Strings and objects *)

Lemma truthy_Some (x : option string) (s : string) :
  truthy x = Some s -> x = Some s /\ s <> "".
Proof.
  destruct x as [t|]; simpl; [|discriminate].
  destruct (String.eqb_spec t ""); [discriminate|].
  intros H; injection H as <-; auto.
Qed.

Lemma truthy_of_nonempty (s : string) : s <> "" -> truthy (Some s) = Some s.
Proof.
  intros H; simpl. destruct (String.eqb_spec s ""); [contradiction|reflexivity].
Qed.

Lemma js_split_nonempty (sep : ascii) (s : string) : js_split sep s <> [].
Proof.
  destruct s as [|c rest]; simpl; [discriminate|].
  destruct (Ascii.eqb c sep); [discriminate|].
  destruct (js_split sep rest); discriminate.
Qed.

Lemma js_split_spaceless (t : string) :
  spaceless t = true -> js_split " " t = [t].
Proof.
  induction t as [|c t IH]; [reflexivity|]. cbn [spaceless js_split].
  destruct (Ascii.eqb c " "); [discriminate|]. cbn [negb andb].
  intros H. now rewrite (IH H).
Qed.

(** The header [Bearer <token>] yields the token. *)
Lemma header_token_bearer (t : string) :
  t <> "" -> spaceless t = true ->
  truthy (header_token (Some ("Bearer " ++ t))) = Some t.
Proof.
  intros Hne Hsp. unfold header_token.
  change (truthy (Some ("Bearer " ++ t))) with (Some ("Bearer " ++ t)).
  cbv beta iota.
  change (js_split " " ("Bearer " ++ t)) with ("Bearer" :: js_split " " t).
  rewrite (js_split_spaceless t Hsp). cbn [nth_error].
  now apply truthy_of_nonempty.
Qed.

Lemma varchar_fits (n : nat) (s : string) :
  (String.length s <= n)%nat -> varchar n s = Some s.
Proof.
  intros H; unfold varchar.
  destruct (Nat.leb_spec (String.length s) n); [reflexivity|lia].
Qed.

Lemma stored_email_fits (e : string) :
  (String.length e <= 255)%nat -> stored_email e = e.
Proof.
  intros H; unfold stored_email; now rewrite varchar_fits.
Qed.

Lemma seven_days_ms (t0 t : Z) :
  1000 * seven_days <= t - t0 -> t0 / 1000 + seven_days <= t / 1000.
Proof.
  intros H.
  rewrite <- (Z.div_add t0 seven_days 1000) by lia.
  apply Z.div_le_mono; lia.
Qed.

Section Properties.

Variable bcrypt_hashpw : string -> string -> string.
Variable jws_sign : Payload -> string -> string.
Variable jws_decode : string -> option Payload.
Variable jws_verify : string -> string -> bool.
Variable JWT_SECRET : option string.

(** What the server relies on from the two packages: a bcrypt digest is 60
    characters long, and a token that was just signed decodes to its
    payload and carries a signature its key accepts. *)
Hypothesis bcrypt_hashpw_length :
  forall s salt, String.length (bcrypt_hashpw s salt) = 60%nat.
Hypothesis jws_decode_sign :
  forall p k, jws_decode (jws_sign p k) = Some p.
Hypothesis jws_verify_sign :
  forall p k, jws_verify (jws_sign p k) k = true.

Local Abbreviation authenticate := (authenticateToken jws_decode jws_verify JWT_SECRET).
Local Abbreviation verify := (jwt_verify jws_decode jws_verify).
Local Abbreviation the_secret := (secret JWT_SECRET).
Local Abbreviation register := (post_register bcrypt_hashpw jws_sign JWT_SECRET).
Local Abbreviation login := (post_login bcrypt_hashpw jws_sign JWT_SECRET).
Local Abbreviation serve := (step bcrypt_hashpw jws_sign jws_decode jws_verify JWT_SECRET).
Local Abbreviation after := (run bcrypt_hashpw jws_sign jws_decode jws_verify JWT_SECRET).

(** ** The authorization gate *)


Lemma authenticate_rejects (env : Env) (req : Request) (token : string)
    (next : Request -> World -> Response * World) (w : World) :
  truthy (header_token (authorization req)) = Some token ->
  (forall claims, verify token the_secret env <> inr claims) ->
  authenticate env req next w = (failure 403 "Invalid or expired token", w).
Proof.
  intros Htok Hbad. unfold authenticateToken. rewrite Htok.
  destruct (jwt_verify jws_decode jws_verify token the_secret env) as [e|c];
    [reflexivity|].
  exfalso; apply (Hbad c); reflexivity.
Qed.

Lemma verify_bad_signature (token k : string) (env : Env) :
  jws_verify token k = false ->
  forall claims, verify token k env <> inr claims.
Proof.
  intros Hsig claims. unfold jwt_verify.
  destruct (jws_decode token); [|discriminate].
  rewrite Hsig; discriminate.
Qed.

Lemma verify_expired (uid : Z) (mail k : string) (env0 env : Env) :
  1000 * seven_days <= date_now env - date_now env0 ->
  forall claims,
    verify (jwt_sign jws_sign uid mail k seven_days env0) k env <> inr claims.
Proof.
  intros Hage claims. unfold jwt_verify, jwt_sign.
  rewrite jws_decode_sign.
  destruct (negb _); [discriminate|]. cbn [exp].
  apply seven_days_ms in Hage.
  destruct (Z.leb_spec (date_now env0 / 1000 + seven_days) (date_now env / 1000));
    [discriminate|lia].
Qed.

(** C2.  A token presented on a protected route is refused with 403, and
    the handler does not run (so nothing is attached as [req.user]), when
    its signature does not validate under the server's secret, and when it
    was issued by the server (which signs with [expiresIn: '7d']) seven
    days or more before the request. *)
Theorem stale_or_forged_token_rejected :
  forall (handler : Handler) (env : Env) (req : Request) (token : string)
         (w : World),
    truthy (header_token (authorization req)) = Some token ->
    (jws_verify token the_secret = false ->
     protected jws_decode jws_verify JWT_SECRET handler env req w
     = (failure 403 "Invalid or expired token", w))
    /\
    (forall uid mail env0,
       token = jwt_sign jws_sign uid mail the_secret seven_days env0 ->
       1000 * seven_days <= date_now env - date_now env0 ->
       protected jws_decode jws_verify JWT_SECRET handler env req w
       = (failure 403 "Invalid or expired token", w)).
Proof.
  intros handler env req token w Htok. split.
  - intros Hsig. apply authenticate_rejects with (token := token); auto.
    now apply verify_bad_signature.
  - intros uid mail env0 -> Hage.
    eapply authenticate_rejects; eauto.
    now apply verify_expired.
Qed.

(** ** Queries and connection faults *)

Lemma set_faults_same (w : World) : set_faults (faults w) w = w.
Proof. destruct w; reflexivity. Qed.

Lemma pool_query_fault_at {A} (stmt : M A) (w : World) :
  pool_query stmt w
  = if fault_at 0 w then (inl ConnectionError, past_query w)
    else stmt (past_query w).
Proof.
  unfold pool_query, fault_at, past_query.
  destruct (faults w) as [|[|] fs] eqn:E; simpl; try reflexivity.
  rewrite <- E, set_faults_same; reflexivity.
Qed.

Lemma pool_query_reaches {A} (stmt : M A) (w : World) :
  no_fault w -> pool_query stmt w = stmt (past_query w).
Proof. intros H; rewrite pool_query_fault_at, H; reflexivity. Qed.


Lemma fault_at_past_query (n : nat) (w : World) :
  fault_at n (past_query w) = fault_at (S n) w.
Proof.
  unfold fault_at, past_query; simpl.
  destruct (faults w); simpl; [destruct n|]; reflexivity.
Qed.

Lemma users_past_query (w : World) : users (past_query w) = users w.
Proof. reflexivity. Qed.

(** ** Registration *)

Lemma register_accepts (env : Env) (req : Request) (w : World)
    (e f l p : string) :
  truthy (email (req_body req)) = Some e ->
  truthy (firstName (req_body req)) = Some f ->
  truthy (lastName (req_body req)) = Some l ->
  truthy (password (req_body req)) = Some p ->
  (String.length e <= 255)%nat ->
  (String.length f <= 100)%nat ->
  (String.length l <= 100)%nat ->
  email_taken e (users w) = false ->
  no_fault w ->
  register env req w
  = (res_json
       [ ("success", JBool true);
         ("message", JStr "Registration successful");
         ("user", JObj [ ("id", JInt (users_id_seq w));
                         ("email", JStr e);
                         ("first_name", JStr f);
                         ("last_name", JStr l);
                         ("created_at", JTime (current_timestamp env)) ]);
         ("token",
          JStr (jwt_sign jws_sign (users_id_seq w) e the_secret seven_days env)) ],
     set_users (users w ++ [new_user bcrypt_hashpw env w e f l p])
       (set_users_id_seq (users_id_seq w + 1) (past_query w))).
Proof.
  intros He Hf Hl Hp Le Lf Ll Hnew Hok.
  unfold post_register, try_catch. rewrite He, Hf, Hl, Hp.
  unfold bind at 1. unfold bcrypt_hash, ret at 1.
  unfold bind at 1. rewrite (pool_query_reaches _ _ Hok).
  unfold insert_user.
  rewrite (varchar_fits 255 e), (varchar_fits 100 f), (varchar_fits 100 l) by assumption.
  rewrite varchar_fits by (rewrite bcrypt_hashpw_length; lia).
  rewrite users_past_query, Hnew. reflexivity.
Qed.

Lemma verify_fresh (uid : Z) (mail k : string) (env0 env : Env) :
  date_now env / 1000 < date_now env0 / 1000 + seven_days ->
  verify (jwt_sign jws_sign uid mail k seven_days env0) k env
  = inr {| claim_id := uid;
           claim_email := mail;
           iat := date_now env0 / 1000;
           exp := Some (date_now env0 / 1000 + seven_days) |}.
Proof.
  intros Hfresh. unfold jwt_verify, jwt_sign.
  rewrite jws_decode_sign, jws_verify_sign. cbn [negb exp].
  destruct (Z.leb_spec (date_now env0 / 1000 + seven_days) (date_now env / 1000));
    [lia|reflexivity].
Qed.


(** ** Login *)

Lemma bcrypt_compare_state (s : option string) (hash : string) (w w0 : World) :
  bcrypt_compare bcrypt_hashpw s hash w
  = (fst (bcrypt_compare bcrypt_hashpw s hash w0), w).
Proof.
  unfold bcrypt_compare. destruct s; [|reflexivity].
  destruct (negb _); reflexivity.
Qed.

Lemma login_known_user (env : Env) (req : Request) (w : World)
    (u : User) (others : list User) :
  users_with_email (email (req_body req)) (users w) = u :: others ->
  fst (bcrypt_compare bcrypt_hashpw (password (req_body req)) (usr_password u) w)
  = inr true ->
  no_fault w ->
  login env req w
  = if fault_at 1 w
    then (failure 500 "Login failed", past_query (past_query w))
    else (res_json
            [ ("success", JBool true);
              ("message", JStr "Login successful");
              ("user", JObj (delete "password" (user_row u)));
              ("token",
               JStr (jwt_sign jws_sign (usr_id u) (usr_email u) the_secret
                       seven_days env)) ],
          set_users (map (touch (usr_id u) (current_timestamp env)) (users w))
            (past_query (past_query w))).
Proof.
  intros Hfound Hmatch Hok.
  unfold post_login, try_catch.
  unfold bind at 1. rewrite (pool_query_reaches _ _ Hok).
  unfold select_user_by_email. rewrite users_past_query, Hfound.
  unfold bind at 1.
  rewrite (bcrypt_compare_state _ _ (past_query w) w), Hmatch. cbn [negb].
  unfold bind at 1. rewrite pool_query_fault_at, fault_at_past_query.
  destruct (fault_at 1 w); reflexivity.
Qed.

(** C4, as amended.  A login with a known email and a matching password
    reports success when the last-login update succeeds; when the update
    fails the answer is 500 'Login failed'. *)
Theorem login_depends_on_last_login_update :
  forall (env : Env) (req : Request) (w : World) (u : User)
         (others : list User),
    users_with_email (email (req_body req)) (users w) = u :: others ->
    fst (bcrypt_compare bcrypt_hashpw (password (req_body req)) (usr_password u) w)
    = inr true ->
    no_fault w ->
    (fault_at 1 w = true ->
     fst (login env req w) = failure 500 "Login failed")
    /\
    (fault_at 1 w = false ->
     status (fst (login env req w)) = 200
     /\ field "success" (fst (login env req w)) = Some (JBool true)
     /\ users (snd (login env req w))
        = map (touch (usr_id u) (current_timestamp env)) (users w)).
Proof.
  intros env req w u others Hfound Hmatch Hok.
  rewrite (login_known_user env req w u others Hfound Hmatch Hok).
  split; intros ->; cbn [fst snd]; repeat split.
Qed.

(** ** Errors of the store *)








(** ** Failed logins *)



(** A login that carries no password is not a login with a wrong password:
    [bcrypt.compare] rejects its argument, and for a known email the answer
    is 500. *)
Lemma login_without_password (env : Env) (req : Request) (w : World)
    (u : User) (others : list User) :
  users_with_email (email (req_body req)) (users w) = u :: others ->
  password (req_body req) = None ->
  no_fault w ->
  login env req w = (failure 500 "Login failed", past_query w).
Proof.
  intros Hfound Hpw Hok. unfold post_login, try_catch.
  unfold bind at 1. rewrite (pool_query_reaches _ _ Hok).
  unfold select_user_by_email. rewrite users_past_query, Hfound, Hpw.
  reflexivity.
Qed.


(** ** How requests change the tables *)

Ltac break_match :=
  match goal with
  | |- context [match ?x with _ => _ end] => destruct x eqn:?
  end.

(** What registration does, case by case. *)
Lemma register_eval (env : Env) (req : Request) (w : World) :
  register env req w
  = match truthy (email (req_body req)), truthy (firstName (req_body req)),
          truthy (lastName (req_body req)), truthy (password (req_body req)) with
    | Some e, Some f, Some l, Some p =>
        if fault_at 0 w
        then (failure 400 "Registration failed", past_query w)
        else
          match varchar 255 e, varchar 100 f, varchar 100 l,
                varchar 255 (bcrypt_hashpw p (gen_salt env 10)) with
          | Some e', Some f', Some l', Some p' =>
              let w' := set_users_id_seq (users_id_seq w + 1) (past_query w) in
              if email_taken e' (users w)
              then (failure 400 ("Key (email)=(" ++ e' ++ ") already exists."), w')
              else
                let u := {| usr_id := users_id_seq w;
                            usr_email := e';
                            usr_first_name := f';
                            usr_last_name := l';
                            usr_password := p';
                            usr_created_at := current_timestamp env;
                            usr_last_login := None;
                            usr_settings := JObj [] |} in
                (res_json
                   [ ("success", JBool true);
                     ("message", JStr "Registration successful");
                     ("user", JObj (project insert_user_returning (user_row u)));
                     ("token",
                      JStr (jwt_sign jws_sign (usr_id u) e the_secret
                              seven_days env)) ],
                 set_users (users w ++ [u]) w')
          | _, _, _, _ => (failure 400 "Registration failed", past_query w)
          end
    | _, _, _, _ => (failure 400 "All fields are required", w)
    end.
Proof.
  unfold post_register, try_catch.
  destruct (truthy (email (req_body req))) as [e|]; [|reflexivity].
  destruct (truthy (firstName (req_body req))) as [f|]; [|reflexivity].
  destruct (truthy (lastName (req_body req))) as [l|]; [|reflexivity].
  destruct (truthy (password (req_body req))) as [p|]; [|reflexivity].
  unfold bind, bcrypt_hash, ret at 1. rewrite pool_query_fault_at.
  destruct (fault_at 0 w); [reflexivity|].
  unfold insert_user.
  destruct (varchar 255 e) as [e'|]; [|reflexivity].
  destruct (varchar 100 f) as [f'|]; [|reflexivity].
  destruct (varchar 100 l) as [l'|]; [|reflexivity].
  destruct (varchar 255 _) as [p'|]; [|reflexivity].
  rewrite users_past_query.
  destruct (email_taken e' (users w)); reflexivity.
Qed.

Lemma register_cases (env : Env) (req : Request) (w : World) :
  (status (fst (register env req w)) = 400
   /\ field "success" (fst (register env req w)) = Some (JBool false)
   /\ users (snd (register env req w)) = users w)
  \/
  (exists e e' u,
      truthy (email (req_body req)) = Some e
      /\ varchar 255 e = Some e'
      /\ email_taken e' (users w) = false
      /\ usr_email u = e'
      /\ usr_settings u = JObj []
      /\ users (snd (register env req w)) = (users w ++ [u])%list
      /\ status (fst (register env req w)) = 200
      /\ exists token,
           body (fst (register env req w))
           = JObj [ ("success", JBool true);
                    ("message", JStr "Registration successful");
                    ("user", JObj (project insert_user_returning (user_row u)));
                    ("token", JStr token) ]).
Proof.
  rewrite register_eval.
  destruct (truthy (email (req_body req))) as [e|] eqn:He;
    [|left; repeat split].
  destruct (truthy (firstName (req_body req))) as [f|]; [|left; repeat split].
  destruct (truthy (lastName (req_body req))) as [l|]; [|left; repeat split].
  destruct (truthy (password (req_body req))) as [p|]; [|left; repeat split].
  destruct (fault_at 0 w); [left; repeat split|].
  destruct (varchar 255 e) as [e'|] eqn:Ee; [|left; repeat split].
  destruct (varchar 100 f) as [f'|]; [|left; repeat split].
  destruct (varchar 100 l) as [l'|]; [|left; repeat split].
  destruct (varchar 255 (bcrypt_hashpw p (gen_salt env 10))) as [p'|];
    [|left; repeat split].
  destruct (email_taken e' (users w)) eqn:Et; [left; repeat split|].
  right.
  exists e, e',
    {| usr_id := users_id_seq w; usr_email := e'; usr_first_name := f';
       usr_last_name := l'; usr_password := p';
       usr_created_at := current_timestamp env; usr_last_login := None;
       usr_settings := JObj [] |}.
  cbn [fst snd].
  split; [reflexivity|]. split; [exact Ee|]. split; [exact Et|].
  split; [reflexivity|]. split; [reflexivity|]. split; [reflexivity|].
  split; [reflexivity|]. eexists. reflexivity.
Qed.

Lemma register_users_step (env : Env) (req : Request) (w : World) :
  users_step (users w) (users (snd (register env req w))).
Proof.
  destruct (register_cases env req w)
    as [(_ & _ & H)|(e & e' & u & _ & _ & Ht & Hu & Hs & H & _)].
  - left; exact H.
  - right; right. exists u. subst e'. auto.
Qed.

Lemma login_users_step (env : Env) (req : Request) (w : World) :
  users_step (users w) (users (snd (login env req w))).
Proof.
  unfold post_login, try_catch, bind at 1. rewrite pool_query_fault_at.
  destruct (fault_at 0 w); [left; reflexivity|].
  unfold select_user_by_email.
  destruct (users_with_email _ _) as [|u others]; [left; reflexivity|].
  unfold bind at 1, bcrypt_compare.
  destruct (password (req_body req)); [|left; reflexivity].
  destruct (negb (_ =? _)%nat); [left; reflexivity|].
  unfold ret at 1.
  destruct (negb (String.eqb _ _)); [left; reflexivity|].
  unfold bind. rewrite pool_query_fault_at.
  destruct (fault_at 0 _); [left; reflexivity|].
  right; left. eexists _, _. reflexivity.
Qed.

Lemma protected_users (handler : Handler) (env : Env) (req : Request)
    (w : World) :
  (forall req' w', users (snd (handler env req' w')) = users w') ->
  users (snd (protected jws_decode jws_verify JWT_SECRET handler env req w))
  = users w.
Proof.
  intros H. unfold protected, authenticateToken.
  destruct (truthy _); [|reflexivity].
  destruct (jwt_verify _ _ _ _ _); [reflexivity|apply H].
Qed.

Lemma profile_users (env : Env) (req : Request) (w : World) :
  users (snd (profile env req w)) = users w.
Proof.
  unfold profile, try_catch, bind, claims_id.
  destruct (user req); [|reflexivity].
  unfold ret at 1. rewrite pool_query_fault_at.
  destruct (fault_at 0 w); reflexivity.
Qed.

(** What submitting a reading does, case by case. *)
Lemma submit_reading_eval (env : Env) (req : Request) (w : World)
    (claims : Payload) :
  user req = Some claims ->
  submit_reading env req w
  = if fault_at 0 w
    then (failure 500 "Failed to save reading", past_query w)
    else
      match numeric 10 2 (power (req_body req)),
            numeric 10 2 (energy (req_body req)),
            numeric 10 4 (cost (req_body req)) with
      | inr p, inr e, inr c =>
          let w' := set_energy_readings_id_seq (energy_readings_id_seq w + 1)
                      (past_query w) in
          if user_exists (claim_id claims) (users w) then
            (res_json [ ("success", JBool true); ("message", JStr "Reading saved") ],
             set_energy_readings
               (energy_readings w
                ++ [ {| rdg_id := energy_readings_id_seq w;
                        rdg_user_id := Some (claim_id claims);
                        rdg_power_w := p;
                        rdg_energy_wh := e;
                        rdg_cost := c;
                        rdg_timestamp := current_timestamp env |} ]) w')
          else (failure 500 "Failed to save reading", w')
      | _, _, _ => (failure 500 "Failed to save reading", past_query w)
      end.
Proof.
  intros Hu. unfold submit_reading, try_catch, bind, claims_id.
  rewrite Hu. unfold ret at 1. rewrite pool_query_fault_at.
  destruct (fault_at 0 w); [reflexivity|].
  unfold insert_reading.
  destruct (numeric 10 2 (power (req_body req))) as [?|p];
    destruct (numeric 10 2 (energy (req_body req))) as [?|e];
    destruct (numeric 10 4 (cost (req_body req))) as [?|c];
    try reflexivity.
  rewrite users_past_query.
  destruct (user_exists (claim_id claims) (users w)); reflexivity.
Qed.

Lemma submit_reading_anonymous (env : Env) (req : Request) (w : World) :
  user req = None ->
  submit_reading env req w = (failure 500 "Failed to save reading", w).
Proof.
  intros Hu. unfold submit_reading, try_catch, bind, claims_id.
  rewrite Hu. reflexivity.
Qed.

Lemma submit_reading_users (env : Env) (req : Request) (w : World) :
  users (snd (submit_reading env req w)) = users w.
Proof.
  destruct (user req) as [claims|] eqn:Hu.
  - rewrite (submit_reading_eval env req w claims Hu).
    destruct (fault_at 0 w); [reflexivity|].
    destruct (numeric 10 2 (power (req_body req))) as [?|p];
      destruct (numeric 10 2 (energy (req_body req))) as [?|e];
      destruct (numeric 10 4 (cost (req_body req))) as [?|c];
      try reflexivity.
    cbv zeta. destruct (user_exists (claim_id claims) (users w)); reflexivity.
  - rewrite (submit_reading_anonymous env req w Hu); reflexivity.
Qed.

Lemma list_readings_users (env : Env) (req : Request) (w : World) :
  users (snd (list_readings env req w)) = users w.
Proof.
  unfold list_readings, try_catch, bind, claims_id.
  destruct (user req); [|reflexivity].
  unfold ret at 1. rewrite pool_query_fault_at.
  destruct (fault_at 0 w); reflexivity.
Qed.

Lemma serve_users_step (w : World) (ev : Event) :
  users_step (users w) (users (snd (serve w ev))).
Proof.
  unfold step. destruct (ev_route ev); cbn [app].
  - apply register_users_step.
  - apply login_users_step.
  - left. apply protected_users. intros; apply profile_users.
  - left. apply protected_users. intros; apply submit_reading_users.
  - left. apply protected_users. intros; apply list_readings_users.
  - left; reflexivity.
  - left; reflexivity.
Qed.

Lemma after_app (w : World) (evs1 evs2 : list Event) :
  after w (evs1 ++ evs2)%list = after (after w evs1) evs2.
Proof. unfold run; apply fold_left_app. Qed.

(** A property of [users] that every request keeps holds after any
    sequence of requests. *)
Lemma after_invariant (P : list User -> Prop) :
  (forall us us', users_step us us' -> P us -> P us') ->
  forall (evs : list Event) (w : World), P (users w) -> P (users (after w evs)).
Proof.
  intros Hstep evs; induction evs as [|ev evs IH]; intros w Hw; [exact Hw|].
  cbn. apply IH. eapply Hstep; [apply serve_users_step|exact Hw].
Qed.

Lemma touch_email (uid ts : Z) (u : User) :
  usr_email (touch uid ts u) = usr_email u.
Proof. unfold touch; destruct (usr_id u =? uid); reflexivity. Qed.

Lemma touch_settings (uid ts : Z) (u : User) :
  usr_settings (touch uid ts u) = usr_settings u.
Proof. unfold touch; destruct (usr_id u =? uid); reflexivity. Qed.

Lemma default_settings_step (us us' : list User) :
  users_step us us' -> default_settings us -> default_settings us'.
Proof.
  unfold default_settings.
  intros [->|[(uid & ts & ->)|(u & -> & Hu & _)]] H.
  - exact H.
  - apply Forall_map. eapply Forall_impl; [|exact H].
    intros a Ha; now rewrite touch_settings.
  - apply Forall_app; split; [exact H|]. constructor; [exact Hu|constructor].
Qed.





(** What a login does, case by case. *)
Lemma login_eval (env : Env) (req : Request) (w : World) :
  login env req w
  = if fault_at 0 w then (failure 500 "Login failed", past_query w)
    else
      match users_with_email (email (req_body req)) (users w) with
      | [] => (failure 401 "Invalid credentials", past_query w)
      | u :: _ =>
          match fst (bcrypt_compare bcrypt_hashpw (password (req_body req))
                       (usr_password u) w) with
          | inl _ => (failure 500 "Login failed", past_query w)
          | inr false => (failure 401 "Invalid credentials", past_query w)
          | inr true =>
              if fault_at 1 w
              then (failure 500 "Login failed", past_query (past_query w))
              else
                (res_json
                   [ ("success", JBool true);
                     ("message", JStr "Login successful");
                     ("user", JObj (delete "password" (user_row u)));
                     ("token",
                      JStr (jwt_sign jws_sign (usr_id u) (usr_email u)
                              the_secret seven_days env)) ],
                 set_users
                   (map (touch (usr_id u) (current_timestamp env)) (users w))
                   (past_query (past_query w)))
          end
      end.
Proof.
  unfold post_login, try_catch, bind at 1. rewrite pool_query_fault_at.
  destruct (fault_at 0 w); [reflexivity|].
  unfold select_user_by_email. rewrite users_past_query.
  destruct (users_with_email _ _) as [|u others]; [reflexivity|].
  unfold bind at 1.
  rewrite (bcrypt_compare_state _ _ (past_query w) w).
  destruct (fst (bcrypt_compare _ _ _ w)) as [err|[|]]; try reflexivity.
  cbn [negb]. unfold bind. rewrite pool_query_fault_at, fault_at_past_query.
  destruct (fault_at 1 w); reflexivity.
Qed.

(** What the profile handler does, case by case. *)
Lemma profile_eval (env : Env) (req : Request) (w : World) :
  profile env req w
  = match user req with
    | None => (failure 500 "Failed to fetch profile", w)
    | Some claims =>
        if fault_at 0 w
        then (failure 500 "Failed to fetch profile", past_query w)
        else
          (res_json
             (("success", JBool true) ::
              match filter (fun u => usr_id u =? claim_id claims) (users w) with
              | [] => []
              | row :: _ =>
                  [("user", JObj (project select_profile_columns (user_row row)))]
              end),
           past_query w)
    end.
Proof.
  unfold profile, try_catch, bind, claims_id.
  destruct (user req); [|reflexivity].
  unfold ret at 1. rewrite pool_query_fault_at.
  destruct (fault_at 0 w); reflexivity.
Qed.

(** What listing the readings does, case by case. *)
Lemma list_readings_eval (env : Env) (req : Request) (w : World) :
  list_readings env req w
  = match user req with
    | None => (failure 500 "Failed to fetch readings", w)
    | Some claims =>
        if fault_at 0 w
        then (failure 500 "Failed to fetch readings", past_query w)
        else
          (res_json
             [ ("success", JBool true);
               ("readings",
                JArr (map (fun r => JObj (reading_row r))
                        (listing (claim_id claims) w))) ],
           past_query w)
    end.
Proof.
  unfold list_readings, try_catch, bind, claims_id.
  destruct (user req); [|reflexivity].
  unfold ret at 1. rewrite pool_query_fault_at.
  destruct (fault_at 0 w); reflexivity.
Qed.

Lemma protected_eval (handler : Handler) (env : Env) (req : Request)
    (w : World) :
  protected jws_decode jws_verify JWT_SECRET handler env req w
  = match truthy (header_token (authorization req)) with
    | None => (failure 401 "Access token required", w)
    | Some token =>
        match verify token the_secret env with
        | inl _ => (failure 403 "Invalid or expired token", w)
        | inr claims => handler env (set_user req claims) w
        end
    end.
Proof.
  unfold protected, authenticateToken.
  destruct (truthy _); [|reflexivity].
  destruct (jwt_verify _ _ _ _ _); reflexivity.
Qed.

(** ** Duplicate registrations *)




(** ** The password column *)

Lemma users_with_email_In (m : option string) (us : list User) (u : User)
    (others : list User) :
  users_with_email m us = u :: others -> In u us.
Proof.
  destruct m as [e|]; [|discriminate]. cbn [users_with_email]. intros H.
  assert (Hin : In u (filter (fun v => String.eqb (usr_email v) e) us))
    by (rewrite H; left; reflexivity).
  now apply filter_In in Hin.
Qed.

Lemma filter_head_In {A} (f : A -> bool) (l : list A) (a : A) (rest : list A) :
  filter f l = a :: rest -> In a l /\ f a = true.
Proof.
  intros H. apply filter_In. rewrite H; left; reflexivity.
Qed.

Lemma user_row_hides_password (u : User) :
  usr_settings u = JObj [] ->
  mentions "password" (JObj (delete "password" (user_row u))) = false
  /\ mentions "password" (JObj (project select_profile_columns (user_row u))) = false
  /\ mentions "password" (JObj (project insert_user_returning (user_row u))) = false.
Proof.
  intros H. unfold user_row. rewrite H.
  destruct (usr_last_login u); split; [|split| |split]; reflexivity.
Qed.

Lemma reading_row_hides_password (r : Reading) :
  mentions "password" (JObj (reading_row r)) = false.
Proof.
  unfold reading_row.
  destruct (rdg_user_id r), (rdg_power_w r), (rdg_energy_wh r), (rdg_cost r);
    reflexivity.
Qed.

Lemma reading_rows_hide_password (l : list Reading) :
  existsb (mentions "password") (map (fun r => JObj (reading_row r)) l) = false.
Proof.
  induction l as [|r l IH]; [reflexivity|].
  cbn [map existsb]. now rewrite reading_row_hides_password, IH.
Qed.

Lemma register_hides_password (env : Env) (req : Request) (w : World) :
  mentions "password" (body (fst (register env req w))) = false.
Proof.
  rewrite register_eval. repeat break_match; reflexivity.
Qed.

Lemma login_hides_password (env : Env) (req : Request) (w : World) :
  default_settings (users w) ->
  mentions "password" (body (fst (login env req w))) = false.
Proof.
  intros Hw. rewrite login_eval.
  destruct (fault_at 0 w); [reflexivity|].
  destruct (users_with_email _ _) as [|u others] eqn:Hfound; [reflexivity|].
  destruct (fst (bcrypt_compare _ _ _ w)) as [err|[|]]; try reflexivity.
  destruct (fault_at 1 w); [reflexivity|].
  apply users_with_email_In in Hfound.
  unfold default_settings in Hw. rewrite Forall_forall in Hw.
  destruct (user_row_hides_password u (Hw u Hfound)) as (H & _).
  cbn [fst body res_json res_status_json mentions existsb].
  cbn [mentions] in H. rewrite H. reflexivity.
Qed.

Lemma profile_hides_password (env : Env) (req : Request) (w : World) :
  default_settings (users w) ->
  mentions "password" (body (fst (profile env req w))) = false.
Proof.
  intros Hw. rewrite profile_eval.
  destruct (user req) as [claims|]; [|reflexivity].
  destruct (fault_at 0 w); [reflexivity|].
  destruct (filter _ (users w)) as [|u others] eqn:Hfound; [reflexivity|].
  apply filter_head_In in Hfound as [Hin _].
  unfold default_settings in Hw. rewrite Forall_forall in Hw.
  destruct (user_row_hides_password u (Hw u Hin)) as (_ & H & _).
  cbn [fst body res_json res_status_json mentions existsb].
  cbn [mentions] in H. rewrite H. reflexivity.
Qed.

Lemma submit_reading_hides_password (env : Env) (req : Request) (w : World) :
  mentions "password" (body (fst (submit_reading env req w))) = false.
Proof.
  destruct (user req) as [claims|] eqn:Hu.
  - rewrite (submit_reading_eval env req w claims Hu).
    repeat break_match; reflexivity.
  - now rewrite (submit_reading_anonymous env req w Hu).
Qed.

Lemma list_readings_hides_password (env : Env) (req : Request) (w : World) :
  mentions "password" (body (fst (list_readings env req w))) = false.
Proof.
  rewrite list_readings_eval.
  destruct (user req) as [claims|]; [|reflexivity].
  destruct (fault_at 0 w); [reflexivity|].
  cbn [fst body res_json res_status_json mentions existsb].
  rewrite reading_rows_hide_password. reflexivity.
Qed.

Lemma protected_hides_password (handler : Handler) (env : Env)
    (req : Request) (w : World) :
  (forall req', mentions "password" (body (fst (handler env req' w))) = false) ->
  mentions "password"
    (body (fst (protected jws_decode jws_verify JWT_SECRET handler env req w)))
  = false.
Proof.
  intros H. rewrite protected_eval.
  destruct (truthy _); [|reflexivity].
  destruct (jwt_verify _ _ _ _ _); [reflexivity|apply H].
Qed.

Lemma serve_hides_password (w : World) (ev : Event) :
  default_settings (users w) ->
  mentions "password" (body (fst (serve w ev))) = false.
Proof.
  intros Hw. unfold step. destruct (ev_route ev); cbn [app].
  - apply register_hides_password.
  - now apply login_hides_password.
  - apply protected_hides_password; intros; now apply profile_hides_password.
  - apply protected_hides_password; intros; apply submit_reading_hides_password.
  - apply protected_hides_password; intros; apply list_readings_hides_password.
  - reflexivity.
  - reflexivity.
Qed.

Lemma protected_user_field (handler : Handler) (env : Env) (req : Request)
    (w : World) (P : object -> Prop) :
  (forall req' o, field "user" (fst (handler env req' w)) = Some (JObj o) -> P o) ->
  forall o,
    field "user"
      (fst (protected jws_decode jws_verify JWT_SECRET handler env req w))
    = Some (JObj o) -> P o.
Proof.
  intros H o. rewrite protected_eval.
  destruct (truthy _); [|discriminate].
  destruct (jwt_verify _ _ _ _ _); [discriminate|apply H].
Qed.

Lemma serve_user_columns (w : World) (ev : Event) (o : object) :
  field "user" (fst (serve w ev)) = Some (JObj o) ->
  match ev_route ev with
  | PostRegister => keys o = insert_user_returning
  | PostLogin => keys o = public_columns
  | GetProfile => keys o = public_columns
  | _ => False
  end.
Proof.
  unfold step. destruct (ev_route ev); cbn [app].
  - rewrite register_eval.
    repeat break_match; try discriminate.
    intros H; injection H as <-; reflexivity.
  - rewrite login_eval.
    repeat break_match; try discriminate.
    intros H; injection H as <-; reflexivity.
  - revert o. apply protected_user_field. intros req' o. rewrite profile_eval.
    repeat break_match; try discriminate.
    intros H; injection H as <-; reflexivity.
  - revert o. apply protected_user_field. intros req' o.
    destruct (user req') as [claims|] eqn:Hu.
    + rewrite (submit_reading_eval _ req' w claims Hu).
      repeat break_match; discriminate.
    + rewrite (submit_reading_anonymous _ req' w Hu); discriminate.
  - revert o. apply protected_user_field. intros req' o.
    rewrite list_readings_eval. repeat break_match; discriminate.
  - discriminate.
  - discriminate.
Qed.

(** C6.  In every state the server can reach from the empty tables, no
    response of any endpoint has a [password] field anywhere in its body.
    The user of a registration response has the fields id, email,
    first_name, last_name and created_at; the user of a login or profile
    response has every column of the row but [password]; no other response
    has a user. *)
Theorem no_password_in_responses :
  forall (fs : list bool) (evs : list Event) (ev : Event),
    let w := after (set_faults fs empty_world) evs in
    let r := fst (serve w ev) in
    mentions "password" (body r) = false
    /\ forall o,
         field "user" r = Some (JObj o) ->
         match ev_route ev with
         | PostRegister =>
             keys o = ["id"; "email"; "first_name"; "last_name"; "created_at"]
         | PostLogin => keys o = public_columns
         | GetProfile => keys o = public_columns
         | _ => False
         end.
Proof.
  intros fs evs ev w r. split.
  - apply serve_hides_password. unfold w.
    apply (after_invariant default_settings default_settings_step).
    constructor.
  - intros o. apply serve_user_columns.
Qed.

(** ** Listing the readings *)





Lemma insert_desc_HdRel (a r : Reading) (l : list Reading) :
  HdRel newer_first a l -> newer_first a r ->
  HdRel newer_first a (insert_desc r l).
Proof.
  intros Hl Hr. destruct l as [|b l]; cbn [insert_desc].
  - constructor; exact Hr.
  - destruct (rdg_timestamp b <=? rdg_timestamp r); constructor;
      [exact Hr|now inversion Hl].
Qed.

Lemma insert_desc_sorted (r : Reading) (l : list Reading) :
  Sorted newer_first l -> Sorted newer_first (insert_desc r l).
Proof.
  induction l as [|a l IH]; intros Hs; cbn [insert_desc].
  - repeat constructor.
  - destruct (Z.leb_spec (rdg_timestamp a) (rdg_timestamp r)).
    + constructor; [exact Hs|]. constructor. exact H.
    + inversion Hs; subst. constructor; [now apply IH|].
      apply insert_desc_HdRel; [assumption|].
      unfold newer_first; lia.
Qed.

Lemma order_by_timestamp_desc_sorted (l : list Reading) :
  Sorted newer_first (order_by_timestamp_desc l).
Proof.
  unfold order_by_timestamp_desc.
  induction l as [|a l IH]; cbn [fold_right]; [constructor|].
  now apply insert_desc_sorted.
Qed.







Lemma protected_authenticated (handler : Handler) (env : Env) (req : Request)
    (claims : Payload) (w : World) :
  authenticated_as jws_decode jws_verify JWT_SECRET env req claims ->
  protected jws_decode jws_verify JWT_SECRET handler env req w
  = handler env (set_user req claims) w.
Proof.
  intros (token & Htok & Hver). rewrite protected_eval, Htok, Hver. reflexivity.
Qed.


(** ** Timestamps of stored readings *)

Lemma protected_energy_readings (handler : Handler) (env : Env)
    (req : Request) (w : World) (P : list Reading -> Prop) :
  P (energy_readings w) ->
  (forall req', P (energy_readings (snd (handler env req' w)))) ->
  P (energy_readings
       (snd (protected jws_decode jws_verify JWT_SECRET handler env req w))).
Proof.
  intros Hw H. rewrite protected_eval.
  destruct (truthy _); [|exact Hw].
  destruct (jwt_verify _ _ _ _ _); [exact Hw|apply H].
Qed.

(** A request leaves [energy_readings] as it is or adds one row, stamped
    with the time of the request. *)
Lemma serve_energy_readings (w : World) (ev : Event) :
  energy_readings (snd (serve w ev)) = energy_readings w
  \/ exists r,
       energy_readings (snd (serve w ev)) = (energy_readings w ++ [r])%list
       /\ rdg_timestamp r = current_timestamp (ev_env ev).
Proof.
  unfold step. destruct (ev_route ev); cbn [app].
  - left. rewrite register_eval. repeat break_match; reflexivity.
  - left. rewrite login_eval. repeat break_match; reflexivity.
  - left. unfold get_profile.
    apply protected_energy_readings with (P := fun rs => rs = energy_readings w);
      [reflexivity|].
    intros req'. rewrite profile_eval. repeat break_match; reflexivity.
  - unfold post_readings.
    apply protected_energy_readings
      with (P := fun rs => rs = energy_readings w
                           \/ exists r, rs = (energy_readings w ++ [r])%list
                                        /\ rdg_timestamp r
                                           = current_timestamp (ev_env ev));
      [left; reflexivity|].
    intros req'. destruct (user req') as [claims|] eqn:Hu.
    + rewrite (submit_reading_eval _ req' w claims Hu).
      repeat break_match; try (left; reflexivity).
      right. eexists; split; reflexivity.
    + rewrite (submit_reading_anonymous _ req' w Hu). left; reflexivity.
  - left. unfold get_readings.
    apply protected_energy_readings with (P := fun rs => rs = energy_readings w);
      [reflexivity|].
    intros req'. rewrite list_readings_eval. repeat break_match; reflexivity.
  - left; reflexivity.
  - left; reflexivity.
Qed.

(** After requests that were all served before time [t], every stored
    reading has a timestamp before [t]. *)
Lemma stored_timestamps_past (t : Z) (evs : list Event) (w : World) :
  Forall (fun ev => current_timestamp (ev_env ev) < t) evs ->
  Forall (fun r => rdg_timestamp r < t) (energy_readings w) ->
  Forall (fun r => rdg_timestamp r < t) (energy_readings (after w evs)).
Proof.
  revert w; induction evs as [|ev evs IH]; intros w Hevs Hw; [exact Hw|].
  inversion Hevs as [|? ? Hev Hrest]; subst. cbn. apply IH; [exact Hrest|].
  destruct (serve_energy_readings w ev) as [->|(r & -> & Hr)]; [exact Hw|].
  apply Forall_app; split; [exact Hw|].
  constructor; [lia|constructor].
Qed.


(** ** Readings without measurements *)

Lemma post_readings_status (env : Env) (req : Request) (w : World) :
  let s := status (fst (post_readings jws_decode jws_verify JWT_SECRET env req w)) in
  s = 200 \/ s = 401 \/ s = 403 \/ s = 500.
Proof.
  unfold post_readings. rewrite protected_eval.
  destruct (truthy _); [|right; left; reflexivity].
  destruct (jwt_verify _ _ _ _ _) as [?|claims];
    [right; right; left; reflexivity|].
  rewrite (submit_reading_eval env (set_user req claims) w claims eq_refl).
  repeat break_match; cbn; auto.
Qed.

(** C10.  POST /api/readings never answers 400.  It does not check that
    power, energy and cost are present: for an authenticated request whose
    user is in [users] and whose insert reaches the database, a row is
    added and the answer is [{success: true, message: 'Reading saved'}] as
    soon as the fields that are present fit their columns; a missing field
    is stored as NULL. *)
Theorem readings_accepted_without_fields :
  forall (env : Env) (req : Request) (w : World),
    status (fst (post_readings jws_decode jws_verify JWT_SECRET env req w)) <> 400
    /\ numeric 10 2 FAbsent = inr None
    /\ numeric 10 4 FAbsent = inr None
    /\ forall (claims : Payload) (p e c : option Z),
         authenticated_as jws_decode jws_verify JWT_SECRET env req claims ->
         no_fault w ->
         user_exists (claim_id claims) (users w) = true ->
         numeric 10 2 (power (req_body req)) = inr p ->
         numeric 10 2 (energy (req_body req)) = inr e ->
         numeric 10 4 (cost (req_body req)) = inr c ->
         fst (post_readings jws_decode jws_verify JWT_SECRET env req w)
         = res_json [ ("success", JBool true); ("message", JStr "Reading saved") ]
         /\ energy_readings (snd (post_readings jws_decode jws_verify JWT_SECRET env req w))
            = (energy_readings w ++ [new_reading env w (claim_id claims) p e c])%list
         /\ (power (req_body req) = FAbsent -> p = None)
         /\ (energy (req_body req) = FAbsent -> e = None)
         /\ (cost (req_body req) = FAbsent -> c = None).
Proof.
  intros env req w. split.
  { destruct (post_readings_status env req w) as [H|[H|[H|H]]];
      cbv zeta in H; rewrite H; discriminate. }
  split; [reflexivity|]. split; [reflexivity|].
  intros claims p e c Hauth Hok Hex Hp He Hc.
  unfold post_readings.
  rewrite (protected_authenticated _ _ _ _ _ Hauth).
  rewrite (submit_reading_eval env (set_user req claims) w claims eq_refl).
  cbn [req_body set_user]. rewrite Hok, Hp, He, Hc. cbv zeta. rewrite Hex.
  cbn [fst snd energy_readings set_energy_readings].
  split; [reflexivity|]. split; [reflexivity|].
  split; [|split]; intros Habs; rewrite Habs in *; cbn in *; congruence.
Qed.

(** * Further properties of the server *)

(** ** Invariants of the tables *)

Lemma protected_world_step (handler : Handler) (env : Env) (req : Request)
    (w : World) :
  (forall req', world_step w (snd (handler env req' w))) ->
  world_step w
    (snd (protected jws_decode jws_verify JWT_SECRET handler env req w)).
Proof.
  intros H. rewrite protected_eval.
  destruct (truthy _);
    [|left; repeat split; [reflexivity|now left]].
  destruct (jwt_verify _ _ _ _ _);
    [left; repeat split; [reflexivity|now left]|apply H].
Qed.

Ltac unchanged := left; cbn; repeat split; try lia; now left.

Lemma serve_world_step (w : World) (ev : Event) :
  world_step w (snd (serve w ev)).
Proof.
  unfold step. destruct (ev_route ev); cbn [app].
  - rewrite register_eval.
    repeat break_match; try unchanged.
    right; right. eexists. cbn. repeat split. assumption.
  - rewrite login_eval.
    repeat break_match; try unchanged.
    right; left. eexists _, _. cbn. repeat split.
  - apply protected_world_step. intros req'. rewrite profile_eval.
    repeat break_match; unchanged.
  - apply protected_world_step. intros req'.
    destruct (user req') as [claims|] eqn:Hu.
    + rewrite (submit_reading_eval _ req' w claims Hu).
      repeat break_match; try unchanged.
      left. cbn. repeat split; [lia|]. right. eexists _, _.
      repeat split. assumption.
    + rewrite (submit_reading_anonymous _ req' w Hu). unchanged.
  - apply protected_world_step. intros req'. rewrite list_readings_eval.
    repeat break_match; unchanged.
  - unchanged.
  - unchanged.
Qed.

(** A property of the world that every request keeps holds after any
    sequence of requests. *)
Lemma after_world_invariant (P : World -> Prop) :
  (forall w w', world_step w w' -> P w -> P w') ->
  forall (evs : list Event) (w : World), P w -> P (after w evs).
Proof.
  intros Hstep evs; induction evs as [|ev evs IH]; intros w Hw; [exact Hw|].
  cbn. apply IH. eapply Hstep; [apply serve_world_step|exact Hw].
Qed.

Lemma touch_id (uid ts : Z) (u : User) : usr_id (touch uid ts u) = usr_id u.
Proof. unfold touch; destruct (usr_id u =? uid); reflexivity. Qed.

Lemma map_touch_ids (uid ts : Z) (us : list User) :
  map usr_id (map (touch uid ts) us) = map usr_id us.
Proof.
  rewrite map_map. apply map_ext. intros; apply touch_id.
Qed.

Lemma map_touch_emails (uid ts : Z) (us : list User) :
  map usr_email (map (touch uid ts) us) = map usr_email us.
Proof.
  rewrite map_map. apply map_ext. intros; apply touch_email.
Qed.


Lemma email_taken_In (e : string) (us : list User) :
  email_taken e us = true <-> In e (map usr_email us).
Proof.
  unfold email_taken. rewrite existsb_exists, in_map_iff.
  split; intros (u & H1 & H2).
  - exists u. apply String.eqb_eq in H2. now split.
  - exists u. split; [exact H2|]. now apply String.eqb_eq.
Qed.

Lemma NoDup_snoc {A} (l : list A) (a : A) :
  NoDup l -> ~ In a l -> NoDup (l ++ [a]).
Proof.
  intros Hl Ha. apply NoDup_rev in Hl.
  rewrite <- (rev_involutive (l ++ [a])), rev_app_distr. cbn [rev app].
  apply NoDup_rev. constructor; [now rewrite <- in_rev|exact Hl].
Qed.

Lemma ids_below_seq_step (w w' : World) :
  world_step w w' -> ids_below_seq w -> ids_below_seq w'.
Proof.
  unfold ids_below_seq.
  intros [(Hu & Hs & _)|[(uid & ts & Hu & Hs & _)|(u & Hu & Hid & Hs & _)]] H;
    rewrite Hu.
  - eapply Forall_impl; [|exact H]. cbn; intros; lia.
  - rewrite Hs. apply Forall_map. eapply Forall_impl; [|exact H].
    cbn; intros a Ha; now rewrite touch_id.
  - rewrite Hs. apply Forall_app; split.
    + eapply Forall_impl; [|exact H]. cbn; intros; lia.
    + constructor; [lia|constructor].
Qed.

Lemma keys_unique_step (w w' : World) :
  world_step w w' -> ids_below_seq w -> keys_unique w -> keys_unique w'.
Proof.
  unfold keys_unique, ids_below_seq.
  intros [(Hu & _)|[(uid & ts & Hu & _)|(u & Hu & Hid & _ & He & _)]] Hb [Hi Hm];
    rewrite Hu.
  - now split.
  - now rewrite map_touch_ids, map_touch_emails.
  - rewrite !map_app. cbn [map]. split; apply NoDup_snoc; try assumption.
    + rewrite in_map_iff. intros (v & Hv & Hin).
      rewrite Forall_forall in Hb. specialize (Hb v Hin). lia.
    + intros Hin. apply email_taken_In in Hin. congruence.
Qed.



(** X1.  In every state the server reaches from the empty tables, whatever
    the requests and the connection failures: the ids of [users] are
    pairwise distinct and below the next value of the sequence, and the
    emails of [users] are pairwise distinct. *)
Theorem users_keys_stay_unique :
  forall (fs : list bool) (evs : list Event),
    let w := after (set_faults fs empty_world) evs in
    NoDup (map usr_id (users w))
    /\ NoDup (map usr_email (users w))
    /\ Forall (fun u => usr_id u < users_id_seq w) (users w).
Proof.
  intros fs evs w.
  assert (H : ids_below_seq w /\ keys_unique w).
  { unfold w.
    apply (after_world_invariant (fun w => ids_below_seq w /\ keys_unique w)).
    - intros w0 w1 Hstep [Hb Hk]. split;
        [now apply (ids_below_seq_step w0)|now apply (keys_unique_step w0)].
    - split; [constructor|split; constructor]. }
  destruct H as [Hb [Hi He]]. auto.
Qed.


(** ** Rows are never removed or rewritten *)

Lemma same_identity_refl (u : User) : same_identity u u.
Proof. unfold same_identity; repeat split. Qed.

Lemma same_identity_trans (u v x : User) :
  same_identity u v -> same_identity v x -> same_identity u x.
Proof.
  unfold same_identity.
  intros (A1 & A2 & A3 & A4 & A5 & A6 & A7) (B1 & B2 & B3 & B4 & B5 & B6 & B7).
  repeat split; congruence.
Qed.

Lemma same_identity_touch (uid ts : Z) (u : User) :
  same_identity u (touch uid ts u).
Proof.
  unfold same_identity, touch. destruct (usr_id u =? uid); repeat split.
Qed.

Lemma world_step_keeps_user (w w' : World) (u : User) :
  world_step w w' -> In u (users w) ->
  exists u', In u' (users w') /\ same_identity u u'.
Proof.
  intros [(Hu & _)|[(uid & ts & Hu & _)|(v & Hu & _)]] Hin; rewrite Hu.
  - exists u. split; [exact Hin|apply same_identity_refl].
  - exists (touch uid ts u). split; [now apply in_map|apply same_identity_touch].
  - exists u. split; [apply in_or_app; now left|apply same_identity_refl].
Qed.

(** X3.  No sequence of requests removes a user or changes the id, email,
    names, password digest, creation time or settings of one: every row of
    [users] is still there afterwards, up to its [last_login]. *)
Theorem users_persist :
  forall (evs : list Event) (w : World) (u : User),
    In u (users w) ->
    exists u', In u' (users (after w evs)) /\ same_identity u u'.
Proof.
  induction evs as [|ev evs IH]; intros w u Hin.
  - exists u. split; [exact Hin|apply same_identity_refl].
  - destruct (world_step_keeps_user w (snd (serve w ev)) u
                (serve_world_step w ev) Hin) as (v & Hv & Huv).
    destruct (IH (snd (serve w ev)) v Hv) as (x & Hx & Hvx).
    exists x. split; [exact Hx|]. now apply (same_identity_trans u v x).
Qed.

(** X4.  No sequence of requests removes or rewrites a reading: the rows of
    [energy_readings] are a prefix of the rows afterwards. *)
Theorem readings_append_only :
  forall (evs : list Event) (w : World),
    exists added,
      energy_readings (after w evs) = (energy_readings w ++ added)%list.
Proof.
  induction evs as [|ev evs IH]; intros w.
  - exists []. cbn. now rewrite app_nil_r.
  - destruct (IH (snd (serve w ev))) as (added & Hadded).
    change (after w (ev :: evs)) with (after (snd (serve w ev)) evs).
    rewrite Hadded.
    destruct (serve_energy_readings w ev) as [->|(r & -> & _)].
    + now exists added.
    + exists (r :: added). now rewrite <- app_assoc.
Qed.

(** ** Registration and login, edge cases *)

(** X5.  A registration with any of its four fields missing or empty is
    answered 400 'All fields are required' before anything else happens: no
    query is issued and the world is unchanged, also when the database
    cannot be reached. *)
Theorem register_validates_first :
  forall (env : Env) (req : Request) (w : World),
    truthy (email (req_body req)) = None
    \/ truthy (firstName (req_body req)) = None
    \/ truthy (lastName (req_body req)) = None
    \/ truthy (password (req_body req)) = None ->
    register env req w = (failure 400 "All fields are required", w).
Proof.
  intros env req w H. rewrite register_eval.
  destruct (truthy (email (req_body req))); [|reflexivity].
  destruct (truthy (firstName (req_body req))); [|reflexivity].
  destruct (truthy (lastName (req_body req))); [|reflexivity].
  destruct (truthy (password (req_body req))); [|reflexivity].
  destruct H as [H|[H|[H|H]]]; discriminate.
Qed.

(** X6.  A login that is not answered 200 changes neither table: in
    particular no [last_login] is stamped by a failed login. *)
Theorem failed_login_changes_nothing :
  forall (env : Env) (req : Request) (w : World),
    status (fst (login env req w)) <> 200 ->
    users (snd (login env req w)) = users w
    /\ energy_readings (snd (login env req w)) = energy_readings w
    /\ users_id_seq (snd (login env req w)) = users_id_seq w.
Proof.
  intros env req w. rewrite login_eval.
  repeat break_match; cbn; intros H; try (repeat split; reflexivity).
  contradiction H; reflexivity.
Qed.

Lemma get_last_login_row (u : User) :
  get "last_login" (delete "password" (user_row u))
  = Some (opt_json JTime (usr_last_login u)).
Proof. reflexivity. Qed.

(** X7.  A successful login answers with the row as it was read before the
    update: the [last_login] of the user in the response is the one of the
    previous login (null the first time), while every row of that id in the
    table now carries the time of this login. *)
Theorem login_reports_previous_last_login :
  forall (env : Env) (req : Request) (w : World) (u : User)
         (others : list User),
    users_with_email (email (req_body req)) (users w) = u :: others ->
    status (fst (login env req w)) = 200 ->
    (exists o,
        field "user" (fst (login env req w)) = Some (JObj o)
        /\ get "last_login" o = Some (opt_json JTime (usr_last_login u))
        /\ get "id" o = Some (JInt (usr_id u)))
    /\ forall v,
         In v (users (snd (login env req w))) ->
         usr_id v = usr_id u ->
         usr_last_login v = Some (current_timestamp env).
Proof.
  intros env req w u others Hfound. rewrite login_eval, Hfound.
  destruct (fault_at 0 w); [discriminate|].
  destruct (fst (bcrypt_compare _ _ _ w)) as [err|[|]]; try discriminate.
  destruct (fault_at 1 w); [discriminate|]. intros _. split.
  - eexists. split; [reflexivity|]. split; [apply get_last_login_row|reflexivity].
  - cbn [snd users set_users]. intros v Hv Hid.
    apply in_map_iff in Hv as (x & <- & _).
    rewrite touch_id in Hid. unfold touch.
    apply Z.eqb_eq in Hid. now rewrite Hid.
Qed.

(** ** Profiles *)

Lemma filter_id_none (uid : Z) (us : list User) :
  user_exists uid us = false -> filter (fun u => usr_id u =? uid) us = [].
Proof.
  unfold user_exists. induction us as [|u us IH]; [reflexivity|].
  cbn [existsb filter]. destruct (usr_id u =? uid); [discriminate|exact IH].
Qed.



Lemma bearer_authenticated (env : Env) (req : Request) (token : string)
    (claims : Payload) :
  authorization req = Some ("Bearer " ++ token) ->
  token <> "" ->
  spaceless token = true ->
  verify token the_secret env = inr claims ->
  authenticated_as jws_decode jws_verify JWT_SECRET env req claims.
Proof.
  intros Hh Hne Hsp Hver. exists token. rewrite Hh.
  split; [now apply header_token_bearer|exact Hver].
Qed.

Lemma filter_id_fresh (n : Z) (us : list User) :
  Forall (fun u => usr_id u < n) us ->
  filter (fun u => usr_id u =? n) us = [].
Proof.
  intros H. apply filter_id_none. unfold user_exists.
  induction H as [|u us Hu _ IH]; [reflexivity|].
  cbn [existsb]. destruct (Z.eqb_spec (usr_id u) n); [lia|exact IH].
Qed.

(** X9.  The token a registration returns opens the profile of the user it
    created.  After a successful registration in a state whose ids were
    drawn from the sequence, GET /api/profile with the header
    [Bearer <token>], before the token expires, answers with the new id,
    the submitted email and names, the creation time, a null [last_login]
    and empty settings. *)
Theorem registration_token_opens_profile :
  forall (env env' : Env) (req req' : Request) (w : World)
         (e f l p token : string),
    truthy (email (req_body req)) = Some e ->
    truthy (firstName (req_body req)) = Some f ->
    truthy (lastName (req_body req)) = Some l ->
    truthy (password (req_body req)) = Some p ->
    (String.length e <= 255)%nat ->
    (String.length f <= 100)%nat ->
    (String.length l <= 100)%nat ->
    email_taken e (users w) = false ->
    no_fault w ->
    ids_below_seq w ->
    field "token" (fst (register env req w)) = Some (JStr token) ->
    token <> "" ->
    spaceless token = true ->
    authorization req' = Some ("Bearer " ++ token) ->
    date_now env' / 1000 < date_now env / 1000 + seven_days ->
    no_fault (snd (register env req w)) ->
    fst (get_profile jws_decode jws_verify JWT_SECRET env' req'
           (snd (register env req w)))
    = res_json
        [ ("success", JBool true);
          ("user",
           JObj [ ("id", JInt (users_id_seq w));
                  ("email", JStr e);
                  ("first_name", JStr f);
                  ("last_name", JStr l);
                  ("created_at", JTime (current_timestamp env));
                  ("last_login", JNull);
                  ("settings", JObj []) ]) ].
Proof.
  intros env env' req req' w e f l p token He Hf Hl Hp Le Lf Ll Hnew Hok Hids.
  rewrite (register_accepts env req w e f l p) by assumption.
  cbn [fst snd field body res_json res_status_json get String.eqb Ascii.eqb
       Bool.eqb].
  intros Htok Hne Hsp Hh Hfresh Hok'. injection Htok as <-.
  assert (Hauth : authenticated_as jws_decode jws_verify JWT_SECRET env' req'
                    {| claim_id := users_id_seq w; claim_email := e;
                       iat := date_now env / 1000;
                       exp := Some (date_now env / 1000 + seven_days) |}).
  { apply (bearer_authenticated env' req' _ _ Hh Hne Hsp).
    now apply verify_fresh. }
  unfold get_profile.
  rewrite (protected_authenticated _ _ _ _ _ Hauth), profile_eval.
  cbn [user set_user claim_id]. rewrite Hok'.
  cbn [users set_users]. rewrite filter_app.
  change (users (set_users_id_seq (users_id_seq w + 1) (past_query w)))
    with (users w).
  rewrite (filter_id_fresh _ _ Hids). cbn [filter app new_user usr_id].
  rewrite Z.eqb_refl. reflexivity.
Qed.

(** ** Logging in after registering *)

(** A bcrypt digest starts with the 29 characters of its salt. *)
Hypothesis bcrypt_hashpw_salt :
  forall s salt,
    String.length salt = 29%nat -> substring 0 29 (bcrypt_hashpw s salt) = salt.






(** ** Storing readings *)

(** X11.  POST /api/readings adds a row exactly when it answers 200, and
    then exactly one, at the end of the table, stamped with the time of the
    request and carrying the id of the token's claims; any other answer
    leaves [energy_readings] as it was. *)
Theorem reading_stored_iff_ok :
  forall (env : Env) (req : Request) (w : World),
    let r := fst (post_readings jws_decode jws_verify JWT_SECRET env req w) in
    let w' := snd (post_readings jws_decode jws_verify JWT_SECRET env req w) in
    (status r = 200
     /\ exists claims p e c,
          authenticated_as jws_decode jws_verify JWT_SECRET env req claims
          /\ energy_readings w'
             = (energy_readings w
                ++ [new_reading env w (claim_id claims) p e c])%list)
    \/ (status r <> 200 /\ energy_readings w' = energy_readings w).
Proof.
  intros env req w. cbv zeta. unfold post_readings. rewrite protected_eval.
  destruct (truthy (header_token (authorization req))) as [token|] eqn:Htok;
    [|right; split; [discriminate|reflexivity]].
  destruct (jwt_verify jws_decode jws_verify token the_secret env)
    as [?|claims] eqn:Hver; [right; split; [discriminate|reflexivity]|].
  rewrite (submit_reading_eval env (set_user req claims) w claims eq_refl).
  cbn [req_body set_user].
  destruct (fault_at 0 w); [right; split; [discriminate|reflexivity]|].
  destruct (numeric 10 2 (power (req_body req))) as [?|p];
    [right; split; [discriminate|reflexivity]|].
  destruct (numeric 10 2 (energy (req_body req))) as [?|e];
    [right; split; [discriminate|reflexivity]|].
  destruct (numeric 10 4 (cost (req_body req))) as [?|c];
    [right; split; [discriminate|reflexivity]|].
  cbv zeta.
  destruct (user_exists (claim_id claims) (users w));
    [|right; split; [discriminate|reflexivity]].
  left. split; [reflexivity|]. exists claims, p, e, c.
  split; [exists token; now split|reflexivity].
Qed.

Lemma numeric_unstorable (p s : nat) (f : num_field) :
  unstorable p s f -> exists err, numeric p s f = inl err.
Proof.
  intros [->|(d & -> & Hbig)]; cbn [numeric]; [eexists; reflexivity|].
  destruct (Z.ltb_spec (Z.abs (rescale s d)) (10 ^ Z.of_nat p)); [lia|].
  eexists; reflexivity.
Qed.

(** X12.  An authenticated POST /api/readings is answered 500 'Failed to
    save reading', and nothing is stored, when one of its measurements is
    not a number or is too large for its column (power and energy
    DECIMAL(10,2), cost DECIMAL(10,4)), or when no row of [users] has the id
    of the claims. *)
Theorem reading_refused :
  forall (env : Env) (req : Request) (w : World) (claims : Payload),
    authenticated_as jws_decode jws_verify JWT_SECRET env req claims ->
    unstorable 10 2 (power (req_body req))
    \/ unstorable 10 2 (energy (req_body req))
    \/ unstorable 10 4 (cost (req_body req))
    \/ user_exists (claim_id claims) (users w) = false ->
    fst (post_readings jws_decode jws_verify JWT_SECRET env req w)
    = failure 500 "Failed to save reading"
    /\ energy_readings
         (snd (post_readings jws_decode jws_verify JWT_SECRET env req w))
       = energy_readings w.
Proof.
  intros env req w claims Hauth Hbad. unfold post_readings.
  rewrite (protected_authenticated _ _ _ _ _ Hauth).
  rewrite (submit_reading_eval env (set_user req claims) w claims eq_refl).
  cbn [req_body set_user].
  destruct (fault_at 0 w); [split; reflexivity|].
  destruct Hbad as [H|[H|[H|H]]].
  - apply numeric_unstorable in H as (err & ->). split; reflexivity.
  - apply numeric_unstorable in H as (err & ->).
    destruct (numeric 10 2 (power (req_body req))); split; reflexivity.
  - apply numeric_unstorable in H as (err & ->).
    destruct (numeric 10 2 (power (req_body req)));
      destruct (numeric 10 2 (energy (req_body req))); split; reflexivity.
  - rewrite H.
    destruct (numeric 10 2 (power (req_body req)));
      destruct (numeric 10 2 (energy (req_body req)));
      destruct (numeric 10 4 (cost (req_body req))); split; reflexivity.
Qed.

(** X13.  The readings of a user are not affected by what another user
    submits: a POST /api/readings authenticated under one id leaves the
    listing of every other id as it was. *)
Theorem listing_unaffected_by_others :
  forall (env : Env) (req : Request) (w : World) (claims : Payload) (uid : Z),
    authenticated_as jws_decode jws_verify JWT_SECRET env req claims ->
    claim_id claims <> uid ->
    listing uid (snd (post_readings jws_decode jws_verify JWT_SECRET env req w))
    = listing uid w.
Proof.
  intros env req w claims uid Hauth Hother. unfold post_readings.
  rewrite (protected_authenticated _ _ _ _ _ Hauth).
  rewrite (submit_reading_eval env (set_user req claims) w claims eq_refl).
  cbn [req_body set_user].
  destruct (fault_at 0 w); [reflexivity|].
  destruct (numeric 10 2 (power (req_body req))) as [?|p]; [reflexivity|].
  destruct (numeric 10 2 (energy (req_body req))) as [?|e]; [reflexivity|].
  destruct (numeric 10 4 (cost (req_body req))) as [?|c]; [reflexivity|].
  cbv zeta.
  destruct (user_exists (claim_id claims) (users w)); [|reflexivity].
  unfold listing. cbn [snd energy_readings set_energy_readings].
  rewrite filter_app. cbn [filter owned_by rdg_user_id].
  destruct (Z.eqb_spec (claim_id claims) uid); [contradiction|].
  now rewrite app_nil_r.
Qed.

(** ** Which rows a listing keeps *)

Lemma insert_desc_perm (r : Reading) (l : list Reading) :
  Permutation (insert_desc r l) (r :: l).
Proof.
  induction l as [|a l IH]; cbn [insert_desc]; [reflexivity|].
  destruct (rdg_timestamp a <=? rdg_timestamp r); [reflexivity|].
  rewrite IH. apply perm_swap.
Qed.

Lemma order_by_timestamp_desc_perm (l : list Reading) :
  Permutation (order_by_timestamp_desc l) l.
Proof.
  unfold order_by_timestamp_desc.
  induction l as [|a l IH]; cbn [fold_right]; [reflexivity|].
  rewrite insert_desc_perm. now constructor.
Qed.

Lemma newer_first_trans : Relations_1.Transitive newer_first.
Proof. unfold newer_first; intros x y z Hxy Hyz; lia. Qed.

Lemma strongly_sorted_app (l1 l2 : list Reading) :
  StronglySorted newer_first (l1 ++ l2) ->
  forall x y, In x l1 -> In y l2 -> newer_first x y.
Proof.
  induction l1 as [|a l1 IH]; intros Hs x y Hx Hy; [contradiction|].
  cbn [app] in Hs. inversion Hs as [|? ? Hrest Hall]; subst.
  destruct Hx as [->|Hx]; [|now apply IH].
  rewrite Forall_forall in Hall. apply Hall, in_or_app. now right.
Qed.

(** X14.  When a user has more than 100 readings the listing keeps the
    newest: the user's rows are the listed rows together with left-out rows,
    and no left-out row is newer than a listed one. *)
Theorem listing_keeps_newest :
  forall (uid : Z) (w : World),
    exists rest,
      Permutation (listing uid w ++ rest)
        (filter (owned_by uid) (energy_readings w))
      /\ forall x y,
           In x (listing uid w) -> In y rest ->
           rdg_timestamp y <= rdg_timestamp x.
Proof.
  intros uid w.
  set (sorted := order_by_timestamp_desc (filter (owned_by uid) (energy_readings w))).
  exists (skipn 100 sorted). unfold listing. fold sorted.
  rewrite firstn_skipn. split; [apply order_by_timestamp_desc_perm|].
  intros x y Hx Hy.
  apply (strongly_sorted_app (firstn 100 sorted) (skipn 100 sorted));
    [|exact Hx|exact Hy].
  rewrite firstn_skipn.
  apply Sorted_StronglySorted;
    [exact newer_first_trans|apply order_by_timestamp_desc_sorted].
Qed.

(** ** The Authorization header and the token *)

Lemma js_split_scheme (scheme rest : string) :
  spaceless scheme = true ->
  js_split " " (scheme ++ String " "%char rest) = scheme :: js_split " " rest.
Proof.
  induction scheme as [|c scheme IH]; [reflexivity|].
  cbn [spaceless append js_split].
  destruct (Ascii.eqb c " "); [discriminate|]. cbn [negb andb].
  intros H. now rewrite (IH H).
Qed.

Lemma header_with_space_truthy (scheme rest : string) :
  truthy (Some (scheme ++ String " "%char rest))
  = Some (scheme ++ String " "%char rest).
Proof.
  apply truthy_of_nonempty. destruct scheme; discriminate.
Qed.

(** X15.  The middleware takes what follows the first space of the
    Authorization header as the token and does not look at the word before
    it: a header made of any word without spaces, one space and a token
    yields that token.  A header without any space, or no header, is
    answered 401 'Access token required' on every protected route. *)
Theorem header_token_extraction :
  (forall scheme token,
      spaceless scheme = true ->
      spaceless token = true ->
      token <> "" ->
      truthy (header_token (Some (scheme ++ " " ++ token))) = Some token)
  /\
  (forall (handler : Handler) (env : Env) (req : Request) (w : World),
      match authorization req with
      | Some h => spaceless h = true
      | None => True
      end ->
      protected jws_decode jws_verify JWT_SECRET handler env req w
      = (failure 401 "Access token required", w)).
Proof.
  split.
  - intros scheme token Hs Ht Hne. unfold header_token.
    change (scheme ++ " " ++ token) with (scheme ++ String " "%char token).
    rewrite header_with_space_truthy, (js_split_scheme _ _ Hs).
    rewrite (js_split_spaceless _ Ht). cbn [nth_error].
    now apply truthy_of_nonempty.
  - intros handler env req w Hh. rewrite protected_eval.
    destruct (authorization req) as [h|]; [|reflexivity].
    unfold header_token.
    destruct (truthy (Some h)) as [h'|] eqn:E.
    + apply truthy_Some in E as [E _]. injection E as <-.
      rewrite (js_split_spaceless _ Hh). reflexivity.
    + rewrite E. reflexivity.
Qed.

(** X16.  A token the server has signed verifies under the same key
    exactly until its expiry: [jwt.verify] accepts it when the clock, in
    whole seconds, is less than the second of issue plus 604800, and refuses
    it from that second on. *)
Theorem issued_token_valid_until_expiry :
  forall (uid : Z) (mail k : string) (env0 env : Env),
    (exists claims,
        verify (jwt_sign jws_sign uid mail k seven_days env0) k env = inr claims)
    <-> date_now env / 1000 < date_now env0 / 1000 + seven_days.
Proof.
  intros uid mail k env0 env. split.
  - intros (claims & H). unfold jwt_verify, jwt_sign in H.
    rewrite jws_decode_sign, jws_verify_sign in H. cbn [negb exp] in H.
    destruct (Z.leb_spec (date_now env0 / 1000 + seven_days) (date_now env / 1000));
      [discriminate|lia].
  - intros H. eexists. now apply verify_fresh.
Qed.

(** ** Status codes *)

Lemma register_status (env : Env) (req : Request) (w : World) :
  status (fst (register env req w)) = 200
  \/ status (fst (register env req w)) = 400.
Proof.
  rewrite register_eval. repeat break_match; cbn; auto.
Qed.

Lemma login_status (env : Env) (req : Request) (w : World) :
  status (fst (login env req w)) = 200
  \/ status (fst (login env req w)) = 401
  \/ status (fst (login env req w)) = 500.
Proof.
  rewrite login_eval. repeat break_match; cbn; auto.
Qed.

Lemma protected_status (handler : Handler) (env : Env) (req : Request)
    (w : World) :
  (forall req', status (fst (handler env req' w)) = 200
                \/ status (fst (handler env req' w)) = 500) ->
  let s := status (fst (protected jws_decode jws_verify JWT_SECRET handler
                          env req w)) in
  s = 200 \/ s = 401 \/ s = 403 \/ s = 500.
Proof.
  intros H. cbv zeta. rewrite protected_eval.
  destruct (truthy _); [|cbn; auto].
  destruct (jwt_verify _ _ _ _ _) as [?|claims]; [cbn; auto|].
  destruct (H (set_user req claims)) as [-> | ->]; auto.
Qed.

(** X17.  The status of every answer, route by route: registration answers
    200 or 400; login 200, 401 or 500; the three protected routes 200, 401,
    403 or 500; the health check and the root always 200. *)
Theorem status_codes :
  forall (w : World) (ev : Event),
    let s := status (fst (serve w ev)) in
    match ev_route ev with
    | PostRegister => s = 200 \/ s = 400
    | PostLogin => s = 200 \/ s = 401 \/ s = 500
    | GetProfile | PostReadings | GetReadings =>
        s = 200 \/ s = 401 \/ s = 403 \/ s = 500
    | GetHealth | GetRoot => s = 200
    end.
Proof.
  intros w ev. unfold step. destruct (ev_route ev); cbn [app] ; cbv zeta.
  - apply register_status.
  - apply login_status.
  - apply protected_status. intros req'. rewrite profile_eval.
    repeat break_match; cbn; auto.
  - apply post_readings_status.
  - apply protected_status. intros req'. rewrite list_readings_eval.
    repeat break_match; cbn; auto.
  - reflexivity.
  - reflexivity.
Qed.

(** ** Routes that only read *)

(** X18.  GET /api/profile, GET /api/readings, GET /health and GET / write
    nothing: the world after the request is the world before it, up to the
    one query the first two may issue. *)
Theorem read_only_routes :
  forall (w : World) (ev : Event),
    read_only (ev_route ev) = true ->
    snd (serve w ev) = w \/ snd (serve w ev) = past_query w.
Proof.
  intros w ev. unfold step. destruct (ev_route ev); cbn [app read_only];
    try discriminate; intros _.
  - unfold get_profile. rewrite protected_eval.
    destruct (truthy _); [|now left].
    destruct (jwt_verify _ _ _ _ _); [now left|].
    rewrite profile_eval. repeat break_match; cbn; auto.
  - unfold get_readings. rewrite protected_eval.
    destruct (truthy _); [|now left].
    destruct (jwt_verify _ _ _ _ _); [now left|].
    rewrite list_readings_eval. repeat break_match; cbn; auto.
  - now left.
  - now left.
Qed.

End Properties.

(** * [initDB] *)

Lemma db_query_eval (stmt : Database -> js_error + Database) (db : Database) :
  db_query stmt db
  = if nth 0 (db_faults db) false then inl ConnectionError
    else stmt (db_past_query db).
Proof.
  unfold db_query, db_past_query.
  destruct db as [u r fs]; cbn. destruct fs as [|[|] fs]; reflexivity.
Qed.

Lemma nth_tl (n : nat) (l : list bool) :
  nth n (tl l) false = nth (S n) l false.
Proof. destruct l; [destruct n|]; reflexivity. Qed.

(** X19.  When its two statements reach the database, [initDB] reports
    success and both tables exist afterwards; a table that existed keeps its
    rows and its sequence, a table that did not is created empty with its
    sequence at 1.  On a database where nothing had been created, the result
    is the empty world the handlers start from. *)
Theorem initDB_creates_tables :
  forall (db : Database),
    nth 0 (db_faults db) false = false ->
    nth 1 (db_faults db) false = false ->
    fst (initDB db) = tables_created
    /\ users_table (snd (initDB db))
       = Some match users_table db with Some t => t | None => ([], 1) end
    /\ energy_readings_table (snd (initDB db))
       = Some match energy_readings_table db with
              | Some t => t
              | None => ([], 1)
              end
    /\ (users_table db = None -> energy_readings_table db = None ->
        world_of (snd (initDB db))
        = Some (set_faults (tl (tl (db_faults db))) empty_world)).
Proof.
  intros db H0 H1. unfold initDB.
  rewrite db_query_eval, H0. cbn [create_users].
  rewrite db_query_eval. cbn [db_faults].
  change (db_faults (db_past_query db)) with (tl (db_faults db)).
  assert (H1' : nth 0 (tl (db_faults db)) false = false)
    by (now rewrite nth_tl).
  rewrite H1'. unfold create_energy_readings.
  cbn [energy_readings_table users_table db_past_query db_faults].
  destruct (energy_readings_table db) as [t|] eqn:Er;
    destruct (users_table db) as [t'|] eqn:Eu; cbn;
    rewrite ?Er, ?Eu; repeat split; try discriminate.
Qed.

(** X20.  When the first statement of [initDB] does not reach the database
    the error is printed, nothing is created and the second statement is not
    attempted.  When only the second fails, the error is printed and [users]
    exists while [energy_readings] is as it was: [initDB] does not undo its
    first statement. *)
Theorem initDB_partial_failure :
  forall (db : Database),
    (nth 0 (db_faults db) false = true ->
     initDB db = (database_error ConnectionError, db_past_query db))
    /\
    (nth 0 (db_faults db) false = false ->
     nth 1 (db_faults db) false = true ->
     fst (initDB db) = database_error ConnectionError
     /\ users_table (snd (initDB db)) <> None
     /\ energy_readings_table (snd (initDB db)) = energy_readings_table db
     /\ db_faults (snd (initDB db)) = tl (tl (db_faults db))).
Proof.
  intros db. unfold initDB. rewrite db_query_eval. split.
  - intros ->. reflexivity.
  - intros -> H1. cbn [create_users]. rewrite db_query_eval. cbn [db_faults].
    change (db_faults (db_past_query db)) with (tl (db_faults db)).
    assert (H1' : nth 0 (tl (db_faults db)) false = true)
      by (now rewrite nth_tl).
    rewrite H1'. cbn. repeat split.
    destruct (users_table db); discriminate.
Qed.

(** X21.  [initDB] can be run again: on a database it has already set up,
    with the connection working, it reports success and changes nothing. *)
Theorem initDB_idempotent :
  forall (db : Database),
    db_faults db = [] ->
    initDB (snd (initDB db)) = (tables_created, snd (initDB db)).
Proof.
  intros [u r fs] Hfs. cbn in Hfs. subst fs.
  destruct u as [tu|], r as [tr|]; reflexivity.
Qed.

(** ** The small instance meets what the server relies on *)

Lemma Demo_fit_length (n : nat) (s : string) : String.length (Demo.fit n s) = n.
Proof.
  revert s; induction n as [|n IH]; intros s; simpl; [reflexivity|].
  destruct s; simpl; now rewrite IH.
Qed.

Lemma Demo_hashpw_length (s salt : string) :
  String.length (Demo.hashpw s salt) = 60%nat.
Proof. apply Demo_fit_length. Qed.

Lemma Demo_dec_pos_enc (p : positive) (rest : string) :
  Demo.dec_pos (Demo.enc_pos p ++ rest) = Some (p, rest).
Proof.
  induction p as [q IH|q IH|]; simpl; try rewrite IH; reflexivity.
Qed.

Lemma Demo_dec_Z_enc (z : Z) (rest : string) :
  Demo.dec_Z (Demo.enc_Z z ++ rest) = Some (z, rest).
Proof.
  destruct z; simpl; try rewrite Demo_dec_pos_enc; reflexivity.
Qed.

Lemma Demo_dec_opt_enc (o : option Z) (rest : string) :
  Demo.dec_opt (Demo.enc_opt o ++ rest) = Some (o, rest).
Proof.
  destruct o as [z|]; simpl; [|reflexivity].
  now rewrite Demo_dec_Z_enc.
Qed.

Lemma Demo_parse_sign (p : Payload) (k : string) :
  Demo.parse (Demo.sign p k) = Some (p, Demo.checksum k).
Proof.
  unfold Demo.parse, Demo.sign.
  rewrite Demo_dec_Z_enc, Demo_dec_Z_enc, Demo_dec_opt_enc, Demo_dec_Z_enc.
  destruct p; reflexivity.
Qed.

Lemma Demo_decode_sign (p : Payload) (k : string) :
  Demo.decode (Demo.sign p k) = Some p.
Proof. unfold Demo.decode; now rewrite Demo_parse_sign. Qed.

Lemma Demo_verify_sign (p : Payload) (k : string) :
  Demo.verify (Demo.sign p k) k = true.
Proof. unfold Demo.verify; rewrite Demo_parse_sign; apply Z.eqb_refl. Qed.

(** ** Instances *)

Lemma stale_or_forged_token_rejected_witness :
  let token := jwt_sign Demo.sign 1 "a@b.com" default_secret seven_days (Demo.env 5) in
  let req := Demo.request (Some ("Bearer " ++ token)) Demo.no_body in
  truthy (header_token (authorization req)) = Some token
  /\ 1000 * seven_days <= date_now (Demo.env 604805) - date_now (Demo.env 5)
  /\ get_profile Demo.decode Demo.verify None (Demo.env 604805) req empty_world
     = (failure 403 "Invalid or expired token", empty_world).
Proof.
  intros token req.
  assert (Htok : truthy (header_token (authorization req)) = Some token)
    by reflexivity.
  assert (Hage : 1000 * seven_days
                 <= date_now (Demo.env 604805) - date_now (Demo.env 5))
    by (vm_compute; discriminate).
  split; [exact Htok|]. split; [exact Hage|].
  exact (proj2 (stale_or_forged_token_rejected
                  Demo.sign Demo.decode Demo.verify None Demo_decode_sign
                  profile (Demo.env 604805) req token empty_world Htok)
           1 "a@b.com" (Demo.env 5) eq_refl Hage).
Defined.

Lemma alice_authenticated (t : Z) (b : Body) :
  t < 604805 ->
  authenticated_as Demo.decode Demo.verify None (Demo.env t) (Sample.bearer b)
    Sample.alice_claims.
Proof.
  intros Ht. exists Sample.alice_token. split; [reflexivity|].
  unfold jwt_verify.
  change (secret None) with default_secret.
  unfold Sample.alice_token, jwt_sign.
  rewrite Demo_decode_sign, Demo_verify_sign. cbn [negb exp].
  change (date_now (Demo.env 5) / 1000 + seven_days) with 604805.
  change (date_now (Demo.env t)) with (1000 * t).
  rewrite Z.mul_comm, Z.div_mul by lia.
  destruct (Z.leb_spec 604805 t); [lia|reflexivity].
Qed.



Lemma login_depends_on_last_login_update_witness :
  let w := set_faults [false; true] Sample.registered in
  let req := Sample.alice_login (Some "pw123456") in
  (no_fault w /\ fault_at 1 w = true)
  /\ fst (Demo.login (Demo.env 6) req w) = failure 500 "Login failed".
Proof.
  intros w req. split; [split; reflexivity|].
  refine (proj1 (login_depends_on_last_login_update Demo.hashpw Demo.sign None
                   (Demo.env 6) req w _ [] eq_refl _ eq_refl) eq_refl).
  reflexivity.
Defined.

(** C4 as stated fails: the email is known and the password matches, the
    last-login update does not reach the database, and the login is answered
    500. *)
Lemma login_fails_with_last_login_update :
  let w := set_faults [false; true] Sample.registered in
  let req := Sample.alice_login (Some "pw123456") in
  (exists u,
      users_with_email (email (req_body req)) (users w) = [u]
      /\ fst (bcrypt_compare Demo.hashpw (password (req_body req)) (usr_password u) w)
         = inr true)
  /\ fault_at 0 w = false
  /\ fault_at 1 w = true
  /\ fst (Demo.login (Demo.env 6) req w) = failure 500 "Login failed"
  /\ field "success" (fst (Demo.login (Demo.env 6) req w)) = Some (JBool false).
Proof.
  intros w req. split; [eexists; split; reflexivity|]. repeat split.
Qed.






Lemma readings_accepted_without_fields_witness :
  (no_fault Sample.registered
   /\ user_exists 1 (users Sample.registered) = true
   /\ power (req_body (Sample.bearer Demo.no_body)) = FAbsent
   /\ energy (req_body (Sample.bearer Demo.no_body)) = FAbsent
   /\ cost (req_body (Sample.bearer Demo.no_body)) = FAbsent)
  /\ fst (Demo.readings_post (Demo.env 7) (Sample.bearer Demo.no_body)
            Sample.registered)
     = res_json [ ("success", JBool true); ("message", JStr "Reading saved") ]
  /\ energy_readings
       (snd (Demo.readings_post (Demo.env 7) (Sample.bearer Demo.no_body)
               Sample.registered))
     = [ {| rdg_id := 1; rdg_user_id := Some 1; rdg_power_w := None;
            rdg_energy_wh := None; rdg_cost := None; rdg_timestamp := 7 |} ].
Proof.
  split; [repeat split|].
  destruct (readings_accepted_without_fields Demo.decode Demo.verify None
              (Demo.env 7) (Sample.bearer Demo.no_body) Sample.registered)
    as (_ & _ & _ & Hrow).
  destruct (Hrow Sample.alice_claims None None None
              (alice_authenticated 7 Demo.no_body ltac:(lia))
              eq_refl eq_refl eq_refl eq_refl eq_refl)
    as (Hresp & Hrows & _).
  split; [exact Hresp|exact Hrows].
Defined.

(** ** Instances of the further properties *)




Lemma users_persist_witness :
  let evs := [ Sample2.event PostLogin 6 (Sample.alice_login (Some "pw123456")) ] in
  In Sample2.alice_row (users Sample.registered)
  /\ exists u',
       In u' (users (run Demo.hashpw Demo.sign Demo.decode Demo.verify None
                       Sample.registered evs))
       /\ same_identity Sample2.alice_row u'.
Proof.
  intros evs.
  assert (Hin : In Sample2.alice_row (users Sample.registered))
    by (vm_compute; left; reflexivity).
  split; [exact Hin|].
  exact (users_persist Demo.hashpw Demo.sign Demo.decode Demo.verify None
           evs Sample.registered Sample2.alice_row Hin).
Defined.

Lemma register_validates_first_witness :
  let w := set_faults [true] empty_world in
  truthy (password (req_body Sample2.no_password)) = None
  /\ Demo.register (Demo.env 5) Sample2.no_password w
     = (failure 400 "All fields are required", w).
Proof.
  intros w. split; [reflexivity|].
  apply (register_validates_first Demo.hashpw Demo.sign None).
  right; right; right; reflexivity.
Defined.

Lemma failed_login_changes_nothing_witness :
  let req := Sample.alice_login (Some "guess") in
  status (fst (Demo.login (Demo.env 6) req Sample.registered)) <> 200
  /\ users (snd (Demo.login (Demo.env 6) req Sample.registered))
     = users Sample.registered.
Proof.
  intros req.
  assert (H : status (fst (Demo.login (Demo.env 6) req Sample.registered)) <> 200)
    by (vm_compute; discriminate).
  split; [exact H|].
  exact (proj1 (failed_login_changes_nothing Demo.hashpw Demo.sign None
                  (Demo.env 6) req Sample.registered H)).
Defined.

Lemma login_reports_previous_last_login_witness :
  let req := Sample.alice_login (Some "pw123456") in
  (users_with_email (email (req_body req)) (users Sample.registered)
   = [Sample2.alice_row]
   /\ status (fst (Demo.login (Demo.env 6) req Sample.registered)) = 200)
  /\ (exists o,
         field "user" (fst (Demo.login (Demo.env 6) req Sample.registered))
         = Some (JObj o)
         /\ get "last_login" o = Some JNull)
  /\ forall v,
       In v (users (snd (Demo.login (Demo.env 6) req Sample.registered))) ->
       usr_id v = 1 ->
       usr_last_login v = Some 6.
Proof.
  intros req. split; [split; reflexivity|].
  destruct (login_reports_previous_last_login Demo.hashpw Demo.sign None
              (Demo.env 6) req Sample.registered Sample2.alice_row []
              eq_refl eq_refl) as ((o & Ho & Hl & _) & Hrows).
  split; [exists o; split; [exact Ho|exact Hl]|exact Hrows].
Defined.


Lemma registration_token_opens_profile_witness :
  (field "token" (fst (Demo.register (Demo.env 5) Sample.alice empty_world))
   = Some (JStr Sample.alice_token)
   /\ spaceless Sample.alice_token = true
   /\ ids_below_seq empty_world)
  /\ field "user"
       (fst (get_profile Demo.decode Demo.verify None (Demo.env 8)
               (Sample.bearer Demo.no_body)
               (snd (Demo.register (Demo.env 5) Sample.alice empty_world))))
     = Some (JObj [ ("id", JInt 1); ("email", JStr "a@b.com");
                    ("first_name", JStr "A"); ("last_name", JStr "B");
                    ("created_at", JTime 5); ("last_login", JNull);
                    ("settings", JObj []) ]).
Proof.
  split; [split; [reflexivity|split; [reflexivity|constructor]]|].
  unfold Demo.register.
  rewrite (registration_token_opens_profile Demo.hashpw Demo.sign Demo.decode
             Demo.verify None Demo_hashpw_length Demo_decode_sign
             Demo_verify_sign (Demo.env 5) (Demo.env 8) Sample.alice
             (Sample.bearer Demo.no_body) empty_world
             "a@b.com" "A" "B" "pw123456" Sample.alice_token
             eq_refl eq_refl eq_refl eq_refl
             ltac:(cbn; lia) ltac:(cbn; lia) ltac:(cbn; lia) eq_refl eq_refl
             ltac:(constructor) eq_refl ltac:(vm_compute; discriminate)
             eq_refl eq_refl ltac:(vm_compute; reflexivity) eq_refl).
  reflexivity.
Defined.


Lemma reading_refused_witness :
  unstorable 10 2 (power (req_body (Sample.bearer Sample2.not_a_number)))
  /\ fst (Demo.readings_post (Demo.env 7) (Sample.bearer Sample2.not_a_number)
            Sample.registered)
     = failure 500 "Failed to save reading"
  /\ energy_readings
       (snd (Demo.readings_post (Demo.env 7) (Sample.bearer Sample2.not_a_number)
               Sample.registered))
     = [].
Proof.
  assert (H : unstorable 10 2 (power (req_body (Sample.bearer Sample2.not_a_number))))
    by (left; reflexivity).
  split; [exact H|].
  exact (reading_refused Demo.decode Demo.verify None (Demo.env 7)
           (Sample.bearer Sample2.not_a_number) Sample.registered
           Sample.alice_claims
           (alice_authenticated 7 Sample2.not_a_number ltac:(lia))
           (or_introl H)).
Defined.

Lemma listing_unaffected_by_others_witness :
  claim_id Sample.alice_claims <> 2
  /\ listing 2 Sample.measured = listing 2 Sample.registered.
Proof.
  assert (H : claim_id Sample.alice_claims <> 2) by discriminate.
  split; [exact H|].
  exact (listing_unaffected_by_others Demo.decode Demo.verify None (Demo.env 7)
           (Sample.bearer Sample.sample_reading) Sample.registered
           Sample.alice_claims 2
           (alice_authenticated 7 Sample.sample_reading ltac:(lia)) H).
Defined.

Lemma read_only_routes_witness :
  let ev := Sample2.event GetReadings 8 (Sample.bearer Demo.no_body) in
  read_only (ev_route ev) = true
  /\ (snd (step Demo.hashpw Demo.sign Demo.decode Demo.verify None
             Sample.measured ev) = Sample.measured
      \/ snd (step Demo.hashpw Demo.sign Demo.decode Demo.verify None
                Sample.measured ev) = past_query Sample.measured).
Proof.
  intros ev. split; [reflexivity|].
  exact (read_only_routes Demo.hashpw Demo.sign Demo.decode Demo.verify None
           Sample.measured ev eq_refl).
Defined.

Lemma initDB_creates_tables_witness :
  nth 0 (db_faults (blank [])) false = false
  /\ world_of (snd (initDB (blank []))) = Some empty_world.
Proof.
  split; [reflexivity|].
  exact (proj2 (proj2 (proj2 (initDB_creates_tables (blank []) eq_refl eq_refl)))
           eq_refl eq_refl).
Defined.

Lemma initDB_partial_failure_witness :
  nth 0 (db_faults (blank [true])) false = true
  /\ initDB (blank [true]) = (database_error ConnectionError, blank []).
Proof.
  split; [reflexivity|].
  exact (proj1 (initDB_partial_failure (blank [true])) eq_refl).
Defined.

Lemma initDB_idempotent_witness :
  db_faults (blank []) = []
  /\ initDB (snd (initDB (blank []))) = (tables_created, snd (initDB (blank []))).
Proof.
  split; [reflexivity|]. exact (initDB_idempotent (blank []) eq_refl).
Defined.

Lemma header_token_extraction_witness :
  (spaceless "Token" = true /\ spaceless "abc" = true /\ "abc" <> "")
  /\ truthy (header_token (Some "Token abc")) = Some "abc"
  /\ get_readings Demo.decode Demo.verify None (Demo.env 8)
       (Demo.request (Some "Bearer") Demo.no_body) Sample.registered
     = (failure 401 "Access token required", Sample.registered).
Proof.
  split; [repeat split; discriminate|].
  destruct (header_token_extraction Demo.decode Demo.verify None)
    as [Htok Hnone].
  split.
  - exact (Htok "Token" "abc" eq_refl eq_refl ltac:(discriminate)).
  - exact (Hnone list_readings (Demo.env 8)
             (Demo.request (Some "Bearer") Demo.no_body) Sample.registered
             eq_refl).
Defined.

Lemma issued_token_valid_until_expiry_witness :
  date_now (Demo.env 604804) / 1000 < date_now (Demo.env 5) / 1000 + seven_days
  /\ (exists claims,
         jwt_verify Demo.decode Demo.verify Sample.alice_token default_secret
           (Demo.env 604804) = inr claims)
  /\ ~ (exists claims,
          jwt_verify Demo.decode Demo.verify Sample.alice_token default_secret
            (Demo.env 604805) = inr claims).
Proof.
  assert (H : date_now (Demo.env 604804) / 1000
              < date_now (Demo.env 5) / 1000 + seven_days)
    by (vm_compute; reflexivity).
  split; [exact H|]. split.
  - exact (proj2 (issued_token_valid_until_expiry Demo.sign Demo.decode
                    Demo.verify Demo_decode_sign Demo_verify_sign
                    1 "a@b.com" default_secret (Demo.env 5) (Demo.env 604804)) H).
  - intros Hex.
    apply (issued_token_valid_until_expiry Demo.sign Demo.decode Demo.verify
             Demo_decode_sign Demo_verify_sign
             1 "a@b.com" default_secret (Demo.env 5) (Demo.env 604805)) in Hex.
    vm_compute in Hex. discriminate.
Defined.
